(** * Single-frame V4L2 capture (user_space/main.c)

    A shallow embedding of the user-space capture program: the file-static
    [camera_params] and [message] objects, the process resources the program
    acquires (file descriptors, one shared memory mapping), the regular files
    it writes, and the log of system calls and stream output it produces.

    The kernel side (the V4L2 driver behind /dev/video0, the memory-mapping
    primitive and the outcome of file operations) is a record of responses,
    one per system call the program can issue; every statement below is
    quantified over it. *)

From Stdlib Require Import ZArith NArith List String Ascii Bool Lia.
From Stdlib Require Import Init.Byte.
Import ListNotations.

Local Open Scope string_scope.
Local Open Scope Z_scope.

(* ================================================================== *)
(** ** Constants of the system headers

    main.c includes them from the C library and from the kernel's
    <linux/videodev2.h>; the values are those of Linux. *)

Module Hdr.

(** <stdlib.h> *)
Definition EXIT_SUCCESS : Z := 0.

(** <fcntl.h> (Linux). *)
Definition O_WRONLY : Z := 1.
Definition O_RDWR   : Z := 2.
Definition O_ACCMODE : Z := 3.
Definition O_CREAT  : Z := 64.   (* 0100 octal *)
Definition O_TRUNC  : Z := 512.  (* 01000 octal *)

(** <sys/mman.h> *)
Definition PROT_READ  : Z := 1.
Definition PROT_WRITE : Z := 2.
Definition MAP_SHARED : Z := 1.
Definition MAP_FAILED : Z := -1. (* (void * ) -1 *)
Definition NULL : Z := 0.

(** <linux/videodev2.h> *)
Definition V4L2_BUF_TYPE_VIDEO_CAPTURE : N := 1%N.
Definition V4L2_MEMORY_MMAP : N := 1%N.
Definition V4L2_COLORSPACE_REC709 : N := 3%N.

Definition v4l2_fourcc (a b c d : ascii) : N :=
  N.lor (N_of_ascii a)
    (N.lor (N.shiftl (N_of_ascii b) 8)
       (N.lor (N.shiftl (N_of_ascii c) 16) (N.shiftl (N_of_ascii d) 24))).

Definition V4L2_PIX_FMT_MJPEG : N := v4l2_fourcc "M" "J" "P" "G".

End Hdr.
Import Hdr.

(** The control requests the program issues. *)
Inductive request : Type :=
| VIDIOC_S_FMT
| VIDIOC_REQBUFS
| VIDIOC_QUERYBUF
| VIDIOC_QBUF
| VIDIOC_DQBUF
| VIDIOC_STREAMON
| VIDIOC_STREAMOFF.

(* ================================================================== *)
(** ** The V4L2 payload structures

    Unsigned 32-bit fields are [N]; [int] values (descriptors, status codes)
    are [Z].  Only the fields the program or the driver contract talks about
    are kept; reserved words and the time code are left out. *)

Record v4l2_pix_format : Type := mk_pix {
  width        : N;
  height       : N;
  pixelformat  : N;
  pix_field    : N;
  bytesperline : N;
  sizeimage    : N;
  colorspace   : N
}.

Record v4l2_format : Type := mk_format {
  fmt_type : N;
  fmt_pix  : v4l2_pix_format
}.

Record v4l2_requestbuffers : Type := mk_reqbufs {
  rb_count  : N;
  rb_type   : N;
  rb_memory : N
}.

Record v4l2_buffer : Type := mk_buffer {
  index     : N;
  buf_type  : N;
  bytesused : N;
  flags     : N;
  buf_field : N;
  timestamp : Z * Z;
  sequence  : N;
  memory    : N;
  m_offset  : N;
  length    : N
}.

(** What [memset (&x, 0, sizeof x)] and static initialisation leave. *)
Definition zero_pix : v4l2_pix_format := mk_pix 0 0 0 0 0 0 0.
Definition zero_format : v4l2_format := mk_format 0 zero_pix.
Definition zero_reqbufs : v4l2_requestbuffers := mk_reqbufs 0 0 0.
Definition zero_buffer : v4l2_buffer := mk_buffer 0 0 0 0 0 (0, 0) 0 0 0 0.

(** Field assignments. *)
Definition set_width (v : N) (p : v4l2_pix_format) : v4l2_pix_format :=
  mk_pix v (height p) (pixelformat p) (pix_field p) (bytesperline p)
    (sizeimage p) (colorspace p).
Definition set_height (v : N) (p : v4l2_pix_format) : v4l2_pix_format :=
  mk_pix (width p) v (pixelformat p) (pix_field p) (bytesperline p)
    (sizeimage p) (colorspace p).
Definition set_pixelformat (v : N) (p : v4l2_pix_format) : v4l2_pix_format :=
  mk_pix (width p) (height p) v (pix_field p) (bytesperline p)
    (sizeimage p) (colorspace p).
Definition set_colorspace (v : N) (p : v4l2_pix_format) : v4l2_pix_format :=
  mk_pix (width p) (height p) (pixelformat p) (pix_field p) (bytesperline p)
    (sizeimage p) v.

Definition set_fmt_type (v : N) (f : v4l2_format) : v4l2_format :=
  mk_format v (fmt_pix f).
Definition upd_fmt_pix (g : v4l2_pix_format -> v4l2_pix_format)
    (f : v4l2_format) : v4l2_format :=
  mk_format (fmt_type f) (g (fmt_pix f)).

Definition set_rb_type (v : N) (r : v4l2_requestbuffers) :=
  mk_reqbufs (rb_count r) v (rb_memory r).
Definition set_rb_memory (v : N) (r : v4l2_requestbuffers) :=
  mk_reqbufs (rb_count r) (rb_type r) v.
Definition set_rb_count (v : N) (r : v4l2_requestbuffers) :=
  mk_reqbufs v (rb_type r) (rb_memory r).

Definition set_buf_type (v : N) (b : v4l2_buffer) : v4l2_buffer :=
  mk_buffer (index b) v (bytesused b) (flags b) (buf_field b) (timestamp b)
    (sequence b) (memory b) (m_offset b) (length b).
Definition set_memory (v : N) (b : v4l2_buffer) : v4l2_buffer :=
  mk_buffer (index b) (buf_type b) (bytesused b) (flags b) (buf_field b)
    (timestamp b) (sequence b) v (m_offset b) (length b).
Definition set_index (v : N) (b : v4l2_buffer) : v4l2_buffer :=
  mk_buffer v (buf_type b) (bytesused b) (flags b) (buf_field b)
    (timestamp b) (sequence b) (memory b) (m_offset b) (length b).

(** [struct camera_params_t]. *)
Record camera_params_t : Type := mk_params {
  device_fs      : Z;
  capture_format : v4l2_format;
  buffer_request : v4l2_requestbuffers;
  buffer         : v4l2_buffer;
  buffer_start   : Z
}.

Definition zero_params : camera_params_t :=
  mk_params 0 zero_format zero_reqbufs zero_buffer NULL.

Definition set_device_fs (v : Z) (c : camera_params_t) :=
  mk_params v (capture_format c) (buffer_request c) (buffer c)
    (buffer_start c).
Definition upd_capture_format (g : v4l2_format -> v4l2_format)
    (c : camera_params_t) :=
  mk_params (device_fs c) (g (capture_format c)) (buffer_request c)
    (buffer c) (buffer_start c).
Definition upd_buffer_request
    (g : v4l2_requestbuffers -> v4l2_requestbuffers) (c : camera_params_t) :=
  mk_params (device_fs c) (capture_format c) (g (buffer_request c))
    (buffer c) (buffer_start c).
Definition upd_buffer (g : v4l2_buffer -> v4l2_buffer)
    (c : camera_params_t) :=
  mk_params (device_fs c) (capture_format c) (buffer_request c)
    (g (buffer c)) (buffer_start c).
Definition set_buffer_start (v : Z) (c : camera_params_t) :=
  mk_params (device_fs c) (capture_format c) (buffer_request c) (buffer c) v.

(* ================================================================== *)
(** ** The process and its environment *)

(** The payload a control request carries, as seen by the kernel. *)
Inductive ioctl_arg : Type :=
| ArgFormat  (f : v4l2_format)
| ArgReqbufs (r : v4l2_requestbuffers)
| ArgBuffer  (b : v4l2_buffer)
| ArgType    (t : N).

(** System calls and stream output, in program order.  [ret] is the value
    the call returned to the program. *)
Inductive event : Type :=
| EvOpen   (path : string) (oflags : Z) (mode : option Z) (ret : Z)
| EvClose  (fd : Z)
| EvIoctl  (fd : Z) (req : request) (arg : ioctl_arg) (ret : Z)
| EvMmap   (addr : Z) (len : N) (prot mflags fd : Z) (off : N) (ret : Z)
| EvWrite  (fd : Z) (buf : Z) (count : N) (ret : Z)
| EvPerror (s : string)
| EvPrintf (s : string).

(** The responses of the kernel.  The program is a straight line in which
    every call site runs at most once, so a response per call (as a function
    of what the program passes in) covers every behaviour of a driver.

    [k_stale] is what the device buffer holds when it is mapped; [k_fill]
    is what the driver has done to each byte of the buffer, between its
    enqueue and the return of the dequeue: the only window in which the
    driver owns the buffer. *)
Record kernel : Type := mk_kernel {
  k_open      : string -> Z -> Z;
  k_close     : Z -> Z;
  k_s_fmt     : v4l2_format -> Z * v4l2_format;
  k_reqbufs   : v4l2_requestbuffers -> Z * v4l2_requestbuffers;
  k_querybuf  : v4l2_buffer -> Z * v4l2_buffer;
  k_mmap      : N -> N -> Z;
  k_stale     : nat -> byte;
  k_streamon  : N -> Z;
  k_qbuf      : v4l2_buffer -> Z * v4l2_buffer;
  k_dqbuf     : v4l2_buffer -> Z * v4l2_buffer;
  k_fill      : nat -> byte -> byte;
  k_streamoff : N -> Z;
  k_write     : string -> list byte -> Z
}.

(** The one shared mapping the program creates. *)
Record mapping : Type := mk_mapping {
  map_base  : Z;
  map_bytes : list byte
}.

Record process : Type := mk_process {
  camera_params : camera_params_t;          (* file static *)
  message       : string;                   (* file static *)
  vm            : option mapping;           (* mapped device memory *)
  fds           : list (Z * (string * Z));  (* open descriptors: path, flags *)
  files         : list (string * list byte);(* regular files *)
  trace         : list event                (* oldest first *)
}.

(** A process at [main]'s entry: statics zeroed, nothing mapped, no
    descriptor of its own, and the regular files it finds. *)
Definition boot (fs : list (string * list byte)) : process :=
  mk_process zero_params "" None [] fs [].

Definition with_params (g : camera_params_t -> camera_params_t)
    (s : process) : process :=
  mk_process (g (camera_params s)) (message s) (vm s) (fds s) (files s)
    (trace s).
Definition with_message (m : string) (s : process) : process :=
  mk_process (camera_params s) m (vm s) (fds s) (files s) (trace s).
Definition with_vm (v : option mapping) (s : process) : process :=
  mk_process (camera_params s) (message s) v (fds s) (files s) (trace s).
Definition with_fds (t : list (Z * (string * Z))) (s : process) : process :=
  mk_process (camera_params s) (message s) (vm s) t (files s) (trace s).
Definition with_files (fs : list (string * list byte)) (s : process) :=
  mk_process (camera_params s) (message s) (vm s) (fds s) fs (trace s).
Definition log (e : event) (s : process) : process :=
  mk_process (camera_params s) (message s) (vm s) (fds s) (files s)
    (trace s ++ [e]).

(** *** Descriptor table and regular files *)

Fixpoint lookup_fd (fd : Z) (t : list (Z * (string * Z)))
    : option (string * Z) :=
  match t with
  | [] => None
  | (fd', e) :: t' => if fd' =? fd then Some e else lookup_fd fd t'
  end.

Fixpoint remove_fd (fd : Z) (t : list (Z * (string * Z)))
    : list (Z * (string * Z)) :=
  match t with
  | [] => []
  | (fd', e) :: t' =>
      if fd' =? fd then remove_fd fd t' else (fd', e) :: remove_fd fd t'
  end.

Definition is_open (fd : Z) (s : process) : bool :=
  match lookup_fd fd (fds s) with Some _ => true | None => false end.

Fixpoint lookup_file (p : string) (fs : list (string * list byte))
    : option (list byte) :=
  match fs with
  | [] => None
  | (q, d) :: fs' => if String.eqb q p then Some d else lookup_file p fs'
  end.

Fixpoint store_file (p : string) (d : list byte)
    (fs : list (string * list byte)) : list (string * list byte) :=
  match fs with
  | [] => [(p, d)]
  | (q, d') :: fs' =>
      if String.eqb q p then (q, d) :: fs' else (q, d') :: store_file p d fs'
  end.

Definition has_flag (oflags bit : Z) : bool :=
  negb (Z.land oflags bit =? 0).

Definition writable (oflags : Z) : bool :=
  let acc := Z.land oflags O_ACCMODE in (acc =? O_WRONLY) || (acc =? O_RDWR).

(** Bytes [d] written at offset 0 over the contents [old]. *)
Definition overwrite (d old : list byte) : list byte :=
  d ++ skipn (List.length d) old.

(** What opening [p] with [oflags] does to the regular files: O_CREAT
    makes an absent file (empty), O_TRUNC empties one opened for writing. *)
Definition open_effect (p : string) (oflags : Z)
    (fs : list (string * list byte)) : list (string * list byte) :=
  match lookup_file p fs with
  | None => if has_flag oflags O_CREAT then store_file p [] fs else fs
  | Some _ =>
      if has_flag oflags O_TRUNC && writable oflags
      then store_file p [] fs else fs
  end.

(** *** Mapped memory *)

Fixpoint fill_from (f : nat -> byte -> byte) (i : nat) (l : list byte)
    : list byte :=
  match l with
  | [] => []
  | b :: l' => f i b :: fill_from f (S i) l'
  end.

(** The mapping once the driver has had the buffer. *)
Definition driver_fill (f : nat -> byte -> byte) (v : option mapping)
    : option mapping :=
  match v with
  | Some mp => Some (mk_mapping (map_base mp) (fill_from f 0 (map_bytes mp)))
  | None => None
  end.

(** [n] bytes at address [p], when they lie in the mapping. *)
Definition load (p : Z) (n : N) (v : option mapping) : option (list byte) :=
  match v with
  | Some mp =>
      if (map_base mp =? p) && (N.to_nat n <=? List.length (map_bytes mp))%nat
      then Some (firstn (N.to_nat n) (map_bytes mp))
      else None
  | None => None
  end.

(** *** Writing to a regular file *)

(** What [write (fd, buf, count)] returns and what it leaves in the regular
    files, for a freshly opened descriptor (offset 0).  A descriptor that is
    not open for writing, or a source outside the mapping, fails with -1; a
    negative answer of the kernel is a failure; otherwise that many bytes,
    at most [count], reach the file. *)
Definition write_effect (k : kernel) (t : list (Z * (string * Z)))
    (v : option mapping) (fs : list (string * list byte))
    (fd buf : Z) (count : N) : Z * list (string * list byte) :=
  match lookup_fd fd t, load buf count v with
  | Some (path, oflags), Some data =>
      if writable oflags then
        let r := k_write k path data in
        if r <? 0 then (r, fs)
        else
          let n := Z.min r (Z.of_N count) in
          (n,
           match lookup_file path fs with
           | Some old =>
               store_file path (overwrite (firstn (Z.to_nat n) data) old) fs
           | None => fs
           end)
      else (-1, fs)
  | _, _ => (-1, fs)
  end.

(* ================================================================== *)
(** ** Control flow: a state monad with process termination *)

(** A C function either returns, or ends the process through [exit], or
    the process is killed by an access outside mapped memory. *)
Inductive outcome (A : Type) : Type :=
| Returns (a : A)
| Exited (code : Z)
| Killed.
Arguments Returns {A} a.
Arguments Exited {A} code.
Arguments Killed {A}.

Definition M (A : Type) : Type := process -> outcome A * process.

Definition ret {A : Type} (a : A) : M A := fun s => (Returns a, s).

Definition bind {A B : Type} (m : M A) (f : A -> M B) : M B :=
  fun s =>
    match m s with
    | (Returns a, s') => f a s'
    | (Exited c, s') => (Exited c, s')
    | (Killed, s') => (Killed, s')
    end.

Notation "x <- m ;; f" := (bind m (fun x => f))
  (at level 61, m at next level, right associativity).
Notation "m ;; f" := (bind m (fun _ => f))
  (at level 61, right associativity).

(** [exit (code)]. *)
Definition exit {A : Type} (code : Z) : M A := fun s => (Exited code, s).

(** [if (c) { body }] where the body does not fall through. *)
Definition when (c : bool) (body : M unit) : M unit :=
  if c then body else ret tt.

(** Reading and assigning the file statics. *)
Definition params : M camera_params_t :=
  fun s => (Returns (camera_params s), s).
Definition assign (g : camera_params_t -> camera_params_t) : M unit :=
  fun s => (Returns tt, with_params g s).
Definition get_message : M string := fun s => (Returns (message s), s).

(** The exit status the parent of the process observes. *)
Definition exit_status (o : outcome Z) : option Z :=
  match o with
  | Returns v => Some v
  | Exited c => Some c
  | Killed => None
  end.

(** The objects whose address the program hands to ioctl. *)
Inductive pointer : Type :=
| P_capture_format   (* &camera_params.capture_format *)
| P_buffer_request   (* &camera_params.buffer_request *)
| P_buffer           (* &camera_params.buffer *)
| P_buffer_type.     (* &camera_params.buffer.type *)

Definition nl : string := String "010" "".

Section Program.

Variable k : kernel.

(** *** System and library calls *)

(** [open (path, oflags)] and [open (path, oflags, mode)]. *)
Definition sys_open (path : string) (oflags : Z) (mode : option Z) : M Z :=
  fun s =>
    let fd := k_open k path oflags in
    let s1 := log (EvOpen path oflags mode fd) s in
    if fd <? 0 then (Returns fd, s1)
    else
      (Returns fd,
       with_files (open_effect path oflags (files s1))
         (with_fds ((fd, (path, oflags)) :: remove_fd fd (fds s1)) s1)).

(** [close (fd)]: the descriptor is released whatever the status. *)
Definition sys_close (fd : Z) : M Z :=
  fun s =>
    let r := if is_open fd s then k_close k fd else -1 in
    (Returns r, with_fds (remove_fd fd (fds s)) (log (EvClose fd) s)).

(** [ioctl (fd, req, p)].  The requests that take a structure copy it in
    and out ( _IOWR ); stream on and off only read the type ( _IOW ).  By
    the time a dequeue returns, the driver has had the buffer. *)
Definition ioctl (fd : Z) (req : request) (p : pointer) : M Z :=
  fun s =>
    let c := camera_params s in
    match req, p with
    | VIDIOC_S_FMT, P_capture_format =>
        let out := k_s_fmt k (capture_format c) in
        (Returns (fst out),
         with_params (upd_capture_format (fun _ => snd out))
           (log (EvIoctl fd req (ArgFormat (capture_format c)) (fst out)) s))
    | VIDIOC_REQBUFS, P_buffer_request =>
        let out := k_reqbufs k (buffer_request c) in
        (Returns (fst out),
         with_params (upd_buffer_request (fun _ => snd out))
           (log (EvIoctl fd req (ArgReqbufs (buffer_request c)) (fst out))
              s))
    | VIDIOC_QUERYBUF, P_buffer =>
        let out := k_querybuf k (buffer c) in
        (Returns (fst out),
         with_params (upd_buffer (fun _ => snd out))
           (log (EvIoctl fd req (ArgBuffer (buffer c)) (fst out)) s))
    | VIDIOC_QBUF, P_buffer =>
        let out := k_qbuf k (buffer c) in
        (Returns (fst out),
         with_params (upd_buffer (fun _ => snd out))
           (log (EvIoctl fd req (ArgBuffer (buffer c)) (fst out)) s))
    | VIDIOC_DQBUF, P_buffer =>
        let out := k_dqbuf k (buffer c) in
        (Returns (fst out),
         with_vm (driver_fill (k_fill k) (vm s))
           (with_params (upd_buffer (fun _ => snd out))
              (log (EvIoctl fd req (ArgBuffer (buffer c)) (fst out)) s)))
    | VIDIOC_STREAMON, P_buffer_type =>
        let r := k_streamon k (buf_type (buffer c)) in
        (Returns r,
         log (EvIoctl fd req (ArgType (buf_type (buffer c))) r) s)
    | VIDIOC_STREAMOFF, P_buffer_type =>
        let r := k_streamoff k (buf_type (buffer c)) in
        (Returns r,
         log (EvIoctl fd req (ArgType (buf_type (buffer c))) r) s)
    | _, _ => (Returns (-1), s)   (* not a call the program makes *)
    end.

(** [mmap (addr, len, prot, mflags, fd, off)]. *)
Definition mmap (addr : Z) (len : N) (prot mflags fd : Z) (off : N)
    : M Z :=
  fun s =>
    let p := k_mmap k len off in
    let s1 := log (EvMmap addr len prot mflags fd off p) s in
    if p =? MAP_FAILED then (Returns p, s1)
    else
      (Returns p,
       with_vm
         (Some (mk_mapping p
                  (List.map (k_stale k) (seq 0 (N.to_nat len))))) s1).

(** [memset (p, c, n)] on mapped memory. *)
Definition memset (p : Z) (c : byte) (n : N) : M unit :=
  fun s =>
    match vm s with
    | Some mp =>
        if (map_base mp =? p)
           && (N.to_nat n <=? List.length (map_bytes mp))%nat
        then
          (Returns tt,
           with_vm
             (Some (mk_mapping p
                      (repeat c (N.to_nat n)
                       ++ skipn (N.to_nat n) (map_bytes mp)))) s)
        else (Killed, s)
    | None => (Killed, s)
    end.

(** [write (fd, buf, count)]. *)
Definition sys_write (fd : Z) (buf : Z) (count : N) : M Z :=
  fun s =>
    let w := write_effect k (fds s) (vm s) (files s) fd buf count in
    (Returns (fst w),
     with_files (snd w) (log (EvWrite fd buf count (fst w)) s)).

(** [perror (s)]: [s], a colon and the text of errno, on standard error.
    The event keeps [s], the part the program chooses. *)
Definition perror (msg : string) : M unit :=
  fun s => (Returns tt, log (EvPerror msg) s).

(** [printf] with its format expanded. *)
Definition printf (text : string) : M unit :=
  fun s => (Returns tt, log (EvPrintf text) s).

(** [sprintf (message, ...)] with its format expanded. *)
Definition sprintf_message (text : string) : M unit :=
  fun s => (Returns tt, with_message text s).

(* ================================================================ *)
(** *** main.c *)

Definition IMAGE_CAPTURE_SAVE_PATH : string :=
  "/home/pi/captured_frame_raw.jpeg".

Definition CAMERA_DEV_PATH : string := "/dev/video0".

Definition open_camera_device : M unit :=
  fd <- sys_open CAMERA_DEV_PATH O_RDWR None ;;
  assign (set_device_fs fd) ;;
  c <- params ;;
  when (device_fs c <? 0)
    (sprintf_message ("Error opening " ++ CAMERA_DEV_PATH ++ nl)%string ;;
     msg <- get_message ;;
     perror msg ;;
     exit 1).

Definition close_camera_device : M unit :=
  c <- params ;;
  _ <- sys_close (device_fs c) ;;
  ret tt.

Definition set_video_format : M unit :=
  assign (upd_capture_format (set_fmt_type V4L2_BUF_TYPE_VIDEO_CAPTURE)) ;;
  assign (upd_capture_format (upd_fmt_pix (set_width 1920))) ;;
  assign (upd_capture_format (upd_fmt_pix (set_height 1080))) ;;
  assign (upd_capture_format
            (upd_fmt_pix (set_pixelformat V4L2_PIX_FMT_MJPEG))) ;;
  assign (upd_capture_format
            (upd_fmt_pix (set_colorspace V4L2_COLORSPACE_REC709))) ;;
  c <- params ;;
  status_code <- ioctl (device_fs c) VIDIOC_S_FMT P_capture_format ;;
  when (status_code <? 0)
    (perror "VIDIOC_S_FMT" ;;
     exit 1).

Definition request_buffer : M unit :=
  assign (upd_buffer_request (set_rb_type V4L2_BUF_TYPE_VIDEO_CAPTURE)) ;;
  assign (upd_buffer_request (set_rb_memory V4L2_MEMORY_MMAP)) ;;
  assign (upd_buffer_request (set_rb_count 1)) ;;
  c <- params ;;
  status_code <- ioctl (device_fs c) VIDIOC_REQBUFS P_buffer_request ;;
  when (status_code <? 0)
    (perror "VIDIOC_REQBUFS" ;;
     exit 1).

Definition allocate_buffer : M unit :=
  assign (upd_buffer (fun _ => zero_buffer)) ;;
  assign (upd_buffer (set_buf_type V4L2_BUF_TYPE_VIDEO_CAPTURE)) ;;
  assign (upd_buffer (set_memory V4L2_MEMORY_MMAP)) ;;
  assign (upd_buffer (set_index 0)) ;;
  c <- params ;;
  status_code <- ioctl (device_fs c) VIDIOC_QUERYBUF P_buffer ;;
  when (status_code <? 0)
    (perror ("Failure on VIDIOC_QUERYBUF, exiting..." ++ nl)%string ;;
     exit 1) ;;
  c <- params ;;
  p <- mmap NULL (length (buffer c)) (Z.lor PROT_READ PROT_WRITE) MAP_SHARED
         (device_fs c) (m_offset (buffer c)) ;;
  assign (set_buffer_start p) ;;
  c <- params ;;
  when (buffer_start c =? MAP_FAILED)
    (perror ("Failure on mmap, exiting..." ++ nl)%string ;;
     exit 1) ;;
  c <- params ;;
  memset (buffer_start c) x00 (length (buffer c)).

Definition activate_streaming : M unit :=
  assign (upd_buffer (fun _ => zero_buffer)) ;;
  assign (upd_buffer (set_buf_type V4L2_BUF_TYPE_VIDEO_CAPTURE)) ;;
  assign (upd_buffer (set_memory V4L2_MEMORY_MMAP)) ;;
  assign (upd_buffer (set_index 0)) ;;
  c <- params ;;
  status_code <- ioctl (device_fs c) VIDIOC_STREAMON P_buffer_type ;;
  when (status_code <? 0)
    (perror "VIDIOC_STREAMON" ;;
     exit 1).

Definition get_frame : M unit :=
  c <- params ;;
  status_code <- ioctl (device_fs c) VIDIOC_QBUF P_buffer ;;
  when (status_code <? 0)
    (perror "VIDIOC_QBUF" ;;
     exit 1) ;;
  c <- params ;;
  status_code <- ioctl (device_fs c) VIDIOC_DQBUF P_buffer ;;
  when (status_code <? 0)
    (perror "VIDIOC_QBUF" ;;
     exit 1).

Definition deactivate_streaming : M unit :=
  c <- params ;;
  status_code <- ioctl (device_fs c) VIDIOC_STREAMOFF P_buffer_type ;;
  when (status_code <? 0)
    (perror "VIDIOC_STREAMOFF" ;;
     exit 1).

Definition save_to_image : M unit :=
  image_fd <- sys_open IMAGE_CAPTURE_SAVE_PATH (Z.lor O_WRONLY O_CREAT)
                (Some 432) ;;                       (* 0660 octal *)
  when (image_fd <? 0)
    (perror "open" ;;
     exit 1) ;;
  c <- params ;;
  _ <- sys_write image_fd (buffer_start c) (length (buffer c)) ;;
  _ <- sys_close image_fd ;;
  ret tt.

Definition main : M Z :=
  open_camera_device ;;
  set_video_format ;;
  request_buffer ;;
  allocate_buffer ;;
  activate_streaming ;;
  get_frame ;;
  deactivate_streaming ;;
  save_to_image ;;
  close_camera_device ;;
  printf ("Image capture successful, saved to "
          ++ IMAGE_CAPTURE_SAVE_PATH ++ nl)%string ;;
  ret EXIT_SUCCESS.

End Program.

(* ================================================================== *)
(** ** Observations on a run *)

(** The descriptor the program builds before a buffer query and before
    stream-on: all zero, then type, memory mode and index. *)
Definition fresh_descriptor : v4l2_buffer :=
  set_index 0
    (set_memory V4L2_MEMORY_MMAP
       (set_buf_type V4L2_BUF_TYPE_VIDEO_CAPTURE zero_buffer)).

(** The format and the buffer request the program builds from its zeroed
    statics. *)
Definition fixed_format : v4l2_format :=
  mk_format V4L2_BUF_TYPE_VIDEO_CAPTURE
    (mk_pix 1920 1080 V4L2_PIX_FMT_MJPEG 0 0 0 V4L2_COLORSPACE_REC709).

Definition fixed_request : v4l2_requestbuffers :=
  mk_reqbufs 1 V4L2_BUF_TYPE_VIDEO_CAPTURE V4L2_MEMORY_MMAP.

(** An event without its payload: which operation, on which object. *)
Inductive operation : Type :=
| OpOpen (path : string)
| OpControl (fd : Z) (req : request)
| OpMap (fd : Z)
| OpWrite (fd : Z)
| OpClose (fd : Z)
| OpDiagnostic
| OpReport.

Definition op_of (e : event) : operation :=
  match e with
  | EvOpen p _ _ _ => OpOpen p
  | EvClose fd => OpClose fd
  | EvIoctl fd req _ _ => OpControl fd req
  | EvMmap _ _ _ _ fd _ _ => OpMap fd
  | EvWrite fd _ _ _ => OpWrite fd
  | EvPerror _ => OpDiagnostic
  | EvPrintf _ => OpReport
  end.

Definition operations (s : process) : list operation :=
  List.map op_of (trace s).

(** A call whose result the program tests, and that reported failure. *)
Definition step_failed (e : event) : bool :=
  match e with
  | EvOpen _ _ _ r => r <? 0
  | EvIoctl _ _ _ r => r <? 0
  | EvMmap _ _ _ _ _ _ r => r =? MAP_FAILED
  | _ => false
  end.

(** A failed step is followed by one diagnostic and nothing else. *)
Fixpoint fail_stops (t : list event) : bool :=
  match t with
  | [] => true
  | e :: t' =>
      if step_failed e
      then match t' with [EvPerror _] => true | _ => false end
      else fail_stops t'
  end.

Definition is_control (e : event) : bool :=
  match e with EvIoctl _ _ _ _ => true | _ => false end.


(** What a write returned. *)
Definition write_result (e : event) : Z :=
  match e with EvWrite _ _ _ r => r | _ => 0 end.

Definition is_close (e : event) : bool :=
  match e with EvClose _ => true | _ => false end.

Definition is_request (q : request) (e : event) : bool :=
  match e, q with
  | EvIoctl _ VIDIOC_S_FMT _ _, VIDIOC_S_FMT => true
  | EvIoctl _ VIDIOC_REQBUFS _ _, VIDIOC_REQBUFS => true
  | EvIoctl _ VIDIOC_QUERYBUF _ _, VIDIOC_QUERYBUF => true
  | EvIoctl _ VIDIOC_QBUF _ _, VIDIOC_QBUF => true
  | EvIoctl _ VIDIOC_DQBUF _ _, VIDIOC_DQBUF => true
  | EvIoctl _ VIDIOC_STREAMON _ _, VIDIOC_STREAMON => true
  | EvIoctl _ VIDIOC_STREAMOFF _ _, VIDIOC_STREAMOFF => true
  | _, _ => false
  end.


(** The byte counts handed to write, and the lengths handed to mmap. *)
Fixpoint write_counts (t : list event) : list N :=
  match t with
  | [] => []
  | EvWrite _ _ n _ :: t' => n :: write_counts t'
  | _ :: t' => write_counts t'
  end.

Fixpoint map_lengths (t : list event) : list N :=
  match t with
  | [] => []
  | EvMmap _ n _ _ _ _ _ :: t' => n :: map_lengths t'
  | _ :: t' => map_lengths t'
  end.

(** The diagnostic a run ended with, if any. *)
Definition last_diagnostic (s : process) : option string :=
  match rev (trace s) with
  | EvPerror m :: _ => Some m
  | _ => None
  end.

(** The contents of a regular file, an absent one counting as empty. *)
Definition contents (p : string) (fs : list (string * list byte))
    : list byte :=
  match lookup_file p fs with Some d => d | None => [] end.

(* ================================================================== *)
(** ** Simulated kernels *)

(** A driver with one buffer that reports [qlen] bytes at the query and
    [dqlen] at the dequeue, hands out descriptors [dev] and [img], maps at
    [addr], answers each control request with [status] and each write with
    [wr]; the frame it captures is [frame]. *)
Definition sim (dev : Z) (status : request -> Z) (addr : Z) (img : Z)
    (wr : list byte -> Z) (qlen dqlen : N) (frame : list byte) : kernel :=
  {| k_open := fun p _ => if String.eqb p CAMERA_DEV_PATH then dev else img;
     k_close := fun _ => 0;
     k_s_fmt := fun f => (status VIDIOC_S_FMT, f);
     k_reqbufs := fun r => (status VIDIOC_REQBUFS, r);
     k_querybuf := fun b =>
       (status VIDIOC_QUERYBUF,
        mk_buffer (index b) (buf_type b) 0 0 0 (0, 0) 0 (memory b) 0 qlen);
     k_mmap := fun _ _ => addr;
     k_stale := fun _ => xaa;
     k_streamon := fun _ => status VIDIOC_STREAMON;
     k_qbuf := fun b => (status VIDIOC_QBUF, b);
     k_dqbuf := fun b =>
       (status VIDIOC_DQBUF,
        mk_buffer (index b) (buf_type b) (N.of_nat (List.length frame)) 0 0
          (1672166400, 0) 0 (memory b) 0 dqlen);
     k_fill := fun i b => nth i frame b;
     k_streamoff := fun _ => status VIDIOC_STREAMOFF;
     k_write := fun _ d => wr d |}.

Definition all_ok : request -> Z := fun _ => 0.

Definition only_fails (q : request) : request -> Z :=
  fun r => if is_request q (EvIoctl 0 r (ArgType 0) 0) then -1 else 0.

Definition full_write (d : list byte) : Z := Z.of_nat (List.length d).

(** Start and end markers of a JPEG stream. *)
Definition jpeg4 : list byte := [xff; xd8; xff; xd9].

Definition nominal : kernel := sim 3 all_ok 4096 4 full_write 4 4 jpeg4.

(** Kernels in which one step fails. *)
Definition device_absent : kernel :=
  sim (-1) all_ok 4096 4 full_write 4 4 jpeg4.

Definition query_fails : kernel :=
  sim 3 (only_fails VIDIOC_QUERYBUF) 4096 4 full_write 4 4 jpeg4.

Definition enqueue_fails : kernel :=
  sim 3 (only_fails VIDIOC_QBUF) 4096 4 full_write 4 4 jpeg4.

Definition dequeue_fails : kernel :=
  sim 3 (only_fails VIDIOC_DQBUF) 4096 4 full_write 4 4 jpeg4.

(** A driver that maps eight bytes and reports four at the dequeue. *)
Definition shorter_frame : kernel :=
  sim 3 all_ok 4096 4 full_write 8 4 jpeg4.

(** An output file left by an earlier, longer capture. *)
Definition stale_output : list (string * list byte) :=
  [(IMAGE_CAPTURE_SAVE_PATH, [x01; x02; x03; x04; x05; x06])].

(** A kernel whose sink refuses the write (a full disk, say). *)
Definition sink_refuses : kernel :=
  sim 3 all_ok 4096 4 (fun _ => -1) 4 4 jpeg4.

(* ================================================================== *)
(** ** Further observations and kernels *)

(** Whether a control request was issued in a trace, and how it ended. *)
Definition issued (q : request) (t : list event) : bool :=
  existsb (is_request q) t.

Definition succeeded (q : request) (t : list event) : bool :=
  existsb (fun e => is_request q e && negb (step_failed e)) t.

Definition failed (q : request) (t : list event) : bool :=
  existsb (fun e => is_request q e && step_failed e) t.


(** The text main.c hands to perror after each call it tests. *)
Definition diagnostic_of (e : event) : string :=
  match e with
  | EvOpen p _ _ _ =>
      if String.eqb p CAMERA_DEV_PATH
      then ("Error opening " ++ CAMERA_DEV_PATH ++ nl)%string
      else "open"
  | EvIoctl _ VIDIOC_S_FMT _ _ => "VIDIOC_S_FMT"
  | EvIoctl _ VIDIOC_REQBUFS _ _ => "VIDIOC_REQBUFS"
  | EvIoctl _ VIDIOC_QUERYBUF _ _ =>
      ("Failure on VIDIOC_QUERYBUF, exiting..." ++ nl)%string
  | EvIoctl _ VIDIOC_STREAMON _ _ => "VIDIOC_STREAMON"
  | EvIoctl _ VIDIOC_QBUF _ _ => "VIDIOC_QBUF"
  | EvIoctl _ VIDIOC_DQBUF _ _ => "VIDIOC_QBUF"
  | EvIoctl _ VIDIOC_STREAMOFF _ _ => "VIDIOC_STREAMOFF"
  | EvMmap _ _ _ _ _ _ _ => ("Failure on mmap, exiting..." ++ nl)%string
  | _ => ""
  end.

(** A failed step is followed by the diagnostic of that call only. *)
Fixpoint diagnosed (t : list event) : bool :=
  match t with
  | [] => true
  | e :: t' =>
      if step_failed e
      then match t' with
           | [EvPerror m] => String.eqb m (diagnostic_of e)
           | _ => false
           end
      else diagnosed t'
  end.

(** Which call an event is, whatever descriptor and payload it carries. *)
Definition call_of (e : event) : operation :=
  match e with
  | EvOpen p _ _ _ => OpOpen p
  | EvClose _ => OpClose 0
  | EvIoctl _ req _ _ => OpControl 0 req
  | EvMmap _ _ _ _ _ _ _ => OpMap 0
  | EvWrite _ _ _ _ => OpWrite 0
  | EvPerror _ => OpDiagnostic
  | EvPrintf _ => OpReport
  end.


(** The kernel [k] with the same status codes, writing other values back
    into the format and into the buffer request. *)
Definition with_adjustments (g : v4l2_format -> v4l2_format)
    (h : v4l2_requestbuffers -> v4l2_requestbuffers) (k : kernel) : kernel :=
  mk_kernel (k_open k) (k_close k)
    (fun f => (fst (k_s_fmt k f), g f))
    (fun r => (fst (k_reqbufs k r), h r))
    (k_querybuf k) (k_mmap k) (k_stale k) (k_streamon k) (k_qbuf k)
    (k_dqbuf k) (k_fill k) (k_streamoff k) (k_write k).

(** A driver whose dequeue answers with another buffer type (9, the
    multi-planar capture type). *)
Definition retyping : kernel :=
  mk_kernel (k_open nominal) (k_close nominal) (k_s_fmt nominal)
    (k_reqbufs nominal) (k_querybuf nominal) (k_mmap nominal)
    (k_stale nominal) (k_streamon nominal) (k_qbuf nominal)
    (fun b => (0, set_buf_type 9 (snd (k_dqbuf nominal b))))
    (k_fill nominal) (k_streamoff nominal) (k_write nominal).

(** A driver that widens the frame and grants three buffers. *)
Definition adjusting : kernel :=
  with_adjustments (upd_fmt_pix (set_width 2592))
    (set_rb_count 3) nominal.

(* ================================================================== *)
(** ** What each function of main.c does

    One equation per function: its outcome and the process it leaves, in
    terms of the answers of the kernel.  The process is taken apart into
    its fields so that every state below is explicit. *)

Lemma lookup_store_same p d fs : lookup_file p (store_file p d fs) = Some d.
Proof.
  induction fs as [|[q d'] fs IH]; simpl.
  - now rewrite String.eqb_refl.
  - destruct (String.eqb q p) eqn:E; simpl; rewrite E; auto.
Qed.

Lemma lookup_open_effect p fl fs :
  has_flag fl O_CREAT = true -> has_flag fl O_TRUNC = false ->
  lookup_file p (open_effect p fl fs) = Some (contents p fs).
Proof.
  intros Hc Ht. unfold open_effect, contents.
  destruct (lookup_file p fs) eqn:E.
  - rewrite Ht. simpl. exact E.
  - rewrite Hc. apply lookup_store_same.
Qed.

(** Without O_CREAT and O_TRUNC an open leaves the regular files alone. *)
Lemma open_effect_plain p fl fs :
  has_flag fl O_CREAT = false -> has_flag fl O_TRUNC = false ->
  open_effect p fl fs = fs.
Proof.
  intros Hc Ht. unfold open_effect. rewrite Hc, Ht.
  now destruct (lookup_file p fs).
Qed.

Lemma length_fill_from f l : forall i,
  List.length (fill_from f i l) = List.length l.
Proof. induction l as [|b l IH]; intros i; simpl; auto. Qed.

(** Clearing the whole of a fresh mapping leaves zeros only. *)
Lemma memset_whole (c : byte) (n : nat) (f : nat -> byte) :
  (repeat c n ++ skipn n (List.map f (seq 0 n)))%list = repeat c n.
Proof.
  rewrite skipn_all2.
  - apply app_nil_r.
  - rewrite length_map, length_seq. apply Nat.le_refl.
Qed.

Ltac unfold_calls :=
  unfold bind, when, ret, assign, params, exit, perror, printf,
    sprintf_message, get_message, ioctl, sys_open, mmap, memset, sys_write,
    sys_close, is_open.

Ltac run_body :=
  unfold_calls;
  cbn -[Z.ltb Z.eqb Z.min Z.of_N Z.to_nat N.to_nat String.append seq repeat
        skipn firstn Nat.leb open_effect lookup_file store_file overwrite
        fill_from List.map List.length write_effect remove_fd lookup_fd
        driver_fill List.app];
  cbv [set_width set_height set_pixelformat set_colorspace set_fmt_type
       upd_fmt_pix set_rb_type set_rb_memory set_rb_count set_buf_type
       set_memory set_index zero_buffer fresh_descriptor fixed_request
       fixed_format];
  cbn [width height pixelformat pix_field bytesperline sizeimage colorspace
       fmt_type fmt_pix rb_count rb_type rb_memory index buf_type bytesused
       flags buf_field timestamp sequence memory m_offset length].

Ltac split_test :=
  match goal with
  | H : ?c = _ |- context [if ?c then _ else _] => rewrite H
  | |- context [if ?c then _ else _] => destruct c eqn:?
  end.

(** Runs the body of a function on an explicit state, splitting on each
    test of a result. *)
Ltac run_fn f :=
  unfold f; run_body; repeat (split_test; run_body); try reflexivity.

Section Equations.

Variable k : kernel.

Variables (dfs : Z) (cf : v4l2_format) (rb : v4l2_requestbuffers)
  (b : v4l2_buffer) (bs : Z).
Variables (msg : string) (v : option mapping) (t : list (Z * (string * Z)))
  (fs : list (string * list byte)) (tr : list event).

Lemma open_camera_device_run :
  open_camera_device k (mk_process (mk_params dfs cf rb b bs) msg v t fs tr) =
    let fd := k_open k CAMERA_DEV_PATH O_RDWR in
    let tr1 := (tr ++ [EvOpen CAMERA_DEV_PATH O_RDWR None fd])%list in
    let m := ("Error opening " ++ CAMERA_DEV_PATH ++ nl)%string in
    if fd <? 0
    then (Exited 1,
          mk_process (mk_params fd cf rb b bs) m v t fs
            (tr1 ++ [EvPerror m]))
    else (Returns tt,
          mk_process (mk_params fd cf rb b bs) msg v
            ((fd, (CAMERA_DEV_PATH, O_RDWR)) :: remove_fd fd t) fs tr1).
Proof.
  run_fn open_camera_device.
  now rewrite open_effect_plain.
Qed.

Lemma close_camera_device_run :
  close_camera_device k
    (mk_process (mk_params dfs cf rb b bs) msg v t fs tr) =
    (Returns tt,
     mk_process (mk_params dfs cf rb b bs) msg v (remove_fd dfs t) fs
       (tr ++ [EvClose dfs])).
Proof. reflexivity. Qed.

Lemma set_video_format_run :
  set_video_format k (mk_process (mk_params dfs cf rb b bs) msg v t fs tr) =
    let f :=
      mk_format V4L2_BUF_TYPE_VIDEO_CAPTURE
        (mk_pix 1920 1080 V4L2_PIX_FMT_MJPEG (pix_field (fmt_pix cf))
           (bytesperline (fmt_pix cf)) (sizeimage (fmt_pix cf))
           V4L2_COLORSPACE_REC709) in
    let out := k_s_fmt k f in
    let tr1 :=
      (tr ++ [EvIoctl dfs VIDIOC_S_FMT (ArgFormat f) (fst out)])%list in
    if fst out <? 0
    then (Exited 1,
          mk_process (mk_params dfs (snd out) rb b bs) msg v t fs
            (tr1 ++ [EvPerror "VIDIOC_S_FMT"]))
    else (Returns tt,
          mk_process (mk_params dfs (snd out) rb b bs) msg v t fs tr1).
Proof.
  run_fn set_video_format.
Qed.

Lemma request_buffer_run :
  request_buffer k (mk_process (mk_params dfs cf rb b bs) msg v t fs tr) =
    let out := k_reqbufs k fixed_request in
    let tr1 :=
      (tr ++ [EvIoctl dfs VIDIOC_REQBUFS (ArgReqbufs fixed_request)
                (fst out)])%list in
    if fst out <? 0
    then (Exited 1,
          mk_process (mk_params dfs cf (snd out) b bs) msg v t fs
            (tr1 ++ [EvPerror "VIDIOC_REQBUFS"]))
    else (Returns tt,
          mk_process (mk_params dfs cf (snd out) b bs) msg v t fs tr1).
Proof.
  run_fn request_buffer.
Qed.

Lemma allocate_buffer_run :
  allocate_buffer k (mk_process (mk_params dfs cf rb b bs) msg v t fs tr) =
    let out := k_querybuf k fresh_descriptor in
    let d := snd out in
    let tr1 :=
      (tr ++ [EvIoctl dfs VIDIOC_QUERYBUF (ArgBuffer fresh_descriptor)
                (fst out)])%list in
    if fst out <? 0
    then (Exited 1,
          mk_process (mk_params dfs cf rb d bs) msg v t fs
            (tr1 ++ [EvPerror ("Failure on VIDIOC_QUERYBUF, exiting..."
                               ++ nl)%string]))
    else
      let p := k_mmap k (length d) (m_offset d) in
      let tr2 :=
        (tr1 ++ [EvMmap NULL (length d) (Z.lor PROT_READ PROT_WRITE)
                   MAP_SHARED dfs (m_offset d) p])%list in
      if p =? MAP_FAILED
      then (Exited 1,
            mk_process (mk_params dfs cf rb d p) msg v t fs
              (tr2 ++ [EvPerror ("Failure on mmap, exiting..."
                                 ++ nl)%string]))
      else (Returns tt,
            mk_process (mk_params dfs cf rb d p) msg
              (Some (mk_mapping p (repeat x00 (N.to_nat (length d)))))
              t fs tr2).
Proof.
  unfold allocate_buffer; run_body.
  repeat (first [ rewrite Z.eqb_refl | rewrite length_map
                | rewrite length_seq | rewrite Nat.leb_refl
                | rewrite memset_whole | split_test ]; run_body).
  all: reflexivity.
Qed.

Lemma activate_streaming_run :
  activate_streaming k (mk_process (mk_params dfs cf rb b bs) msg v t fs tr) =
    let r := k_streamon k V4L2_BUF_TYPE_VIDEO_CAPTURE in
    let tr1 :=
      (tr ++ [EvIoctl dfs VIDIOC_STREAMON
                (ArgType V4L2_BUF_TYPE_VIDEO_CAPTURE) r])%list in
    if r <? 0
    then (Exited 1,
          mk_process (mk_params dfs cf rb fresh_descriptor bs) msg v t fs
            (tr1 ++ [EvPerror "VIDIOC_STREAMON"]))
    else (Returns tt,
          mk_process (mk_params dfs cf rb fresh_descriptor bs) msg v t fs
            tr1).
Proof. run_fn activate_streaming. Qed.

Lemma get_frame_run :
  get_frame k (mk_process (mk_params dfs cf rb b bs) msg v t fs tr) =
    let q := k_qbuf k b in
    let tr1 :=
      (tr ++ [EvIoctl dfs VIDIOC_QBUF (ArgBuffer b) (fst q)])%list in
    if fst q <? 0
    then (Exited 1,
          mk_process (mk_params dfs cf rb (snd q) bs) msg v t fs
            (tr1 ++ [EvPerror "VIDIOC_QBUF"]))
    else
      let dq := k_dqbuf k (snd q) in
      let tr2 :=
        (tr1 ++ [EvIoctl dfs VIDIOC_DQBUF (ArgBuffer (snd q))
                   (fst dq)])%list in
      let v' := driver_fill (k_fill k) v in
      if fst dq <? 0
      then (Exited 1,
            mk_process (mk_params dfs cf rb (snd dq) bs) msg v' t fs
              (tr2 ++ [EvPerror "VIDIOC_QBUF"]))
      else (Returns tt,
            mk_process (mk_params dfs cf rb (snd dq) bs) msg v' t fs tr2).
Proof. run_fn get_frame. Qed.

Lemma deactivate_streaming_run :
  deactivate_streaming k
    (mk_process (mk_params dfs cf rb b bs) msg v t fs tr) =
    let r := k_streamoff k (buf_type b) in
    let tr1 :=
      (tr ++ [EvIoctl dfs VIDIOC_STREAMOFF (ArgType (buf_type b)) r])%list in
    if r <? 0
    then (Exited 1,
          mk_process (mk_params dfs cf rb b bs) msg v t fs
            (tr1 ++ [EvPerror "VIDIOC_STREAMOFF"]))
    else (Returns tt,
          mk_process (mk_params dfs cf rb b bs) msg v t fs tr1).
Proof. run_fn deactivate_streaming. Qed.

Lemma save_to_image_run :
  save_to_image k (mk_process (mk_params dfs cf rb b bs) msg v t fs tr) =
    let oflags := Z.lor O_WRONLY O_CREAT in
    let img := k_open k IMAGE_CAPTURE_SAVE_PATH oflags in
    let tr1 :=
      (tr ++ [EvOpen IMAGE_CAPTURE_SAVE_PATH oflags (Some 432) img])%list in
    if img <? 0
    then (Exited 1,
          mk_process (mk_params dfs cf rb b bs) msg v t fs
            (tr1 ++ [EvPerror "open"]))
    else
      let t1 := (img, (IMAGE_CAPTURE_SAVE_PATH, oflags)) :: remove_fd img t in
      let w :=
        write_effect k t1 v (open_effect IMAGE_CAPTURE_SAVE_PATH oflags fs)
          img bs (length b) in
      (Returns tt,
       mk_process (mk_params dfs cf rb b bs) msg v (remove_fd img t1) (snd w)
         ((tr1 ++ [EvWrite img bs (length b) (fst w)]) ++ [EvClose img])).
Proof. run_fn save_to_image. Qed.

End Equations.

(* ================================================================== *)
(** ** Running main, one function at a time *)

Lemma bind_run {A B : Type} (m : M A) (f : A -> M B) (s : process)
    (r : outcome A * process) :
  m s = r ->
  bind m f s =
    match r with
    | (Returns a, s') => f a s'
    | (Exited c, s') => (Exited c, s')
    | (Killed, s') => (Killed, s')
    end.
Proof. intros <-. reflexivity. Qed.

(** Replaces the call at the head of [E : (f k ;; rest) s = _] by what the
    equation [lem] of [f] says, and splits on the tests of [f]. *)
Ltac call lem E :=
  rewrite (bind_run _ _ _ _ (lem _ _ _ _ _ _ _ _ _ _ _)) in E;
  cbv beta zeta in E;
  cbn [fmt_pix pix_field bytesperline sizeimage] in E;
  fold fixed_format in E;
  repeat match type of E with
         | context [if ?c then _ else _] =>
             let H := fresh "T" in
             destruct c eqn:H; rewrite ?H in E
         end;
  cbv beta iota in E.

Ltac finished E :=
  match type of E with
  | (_, _) = (_, _) => apply pair_equal_spec in E; destruct E as [<- <-]
  end.

Ltac run_main E :=
  unfold main, boot, zero_params, zero_format, zero_pix in E;
  call open_camera_device_run E; [ finished E | ];
  [ .. | call set_video_format_run E; [ finished E | ] ];
  [ .. | call request_buffer_run E; [ finished E | ] ];
  [ .. | call allocate_buffer_run E; [ finished E | finished E | ] ];
  [ .. | call activate_streaming_run E; [ finished E | ] ];
  [ .. | call get_frame_run E; [ finished E | finished E | ] ];
  [ .. | call deactivate_streaming_run E; [ finished E | ] ];
  [ .. | call save_to_image_run E; [ finished E | ] ];
  [ .. | call close_camera_device_run E;
         unfold bind, printf, ret, log in E; cbv beta iota in E;
         finished E ].

(** Projects the final state of a path onto what a statement observes. *)
Ltac observe :=
  cbn [operations trace files fds vm camera_params message buffer
       buffer_start device_fs capture_format buffer_request
       List.map op_of List.app fst snd exit_status].

(** Rewrites with the tests recorded along a path. *)
Ltac use_tests :=
  repeat match goal with
         | T : ?c = _ |- context [?c] => rewrite T
         end.

(* ================================================================== *)
(** ** Order of the session *)

(** C1. Whenever main returns 0, the operations it performed are, in this
    order and once each: open the device, set the format, request buffers,
    query the buffer and map it, stream on, enqueue, dequeue, stream off,
    open the sink, write to it, close it, close the device, and the final
    report.  Every control request and the mapping go to the descriptor
    the first open returned. *)
Theorem main_success_order (k : kernel) (fs : list (string * list byte)) :
  exit_status (fst (main k (boot fs))) = Some 0 ->
  let dev := k_open k CAMERA_DEV_PATH O_RDWR in
  let img := k_open k IMAGE_CAPTURE_SAVE_PATH (Z.lor O_WRONLY O_CREAT) in
  operations (snd (main k (boot fs))) =
    [ OpOpen CAMERA_DEV_PATH;
      OpControl dev VIDIOC_S_FMT;
      OpControl dev VIDIOC_REQBUFS;
      OpControl dev VIDIOC_QUERYBUF;
      OpMap dev;
      OpControl dev VIDIOC_STREAMON;
      OpControl dev VIDIOC_QBUF;
      OpControl dev VIDIOC_DQBUF;
      OpControl dev VIDIOC_STREAMOFF;
      OpOpen IMAGE_CAPTURE_SAVE_PATH;
      OpWrite img;
      OpClose img;
      OpClose dev;
      OpReport ].
Proof.
  destruct (main k (boot fs)) as [o s'] eqn:E.
  run_main E; observe; intros H; try discriminate H.
  reflexivity.
Qed.

Lemma main_success_order_witness :
  exit_status (fst (main nominal (boot []))) = Some 0 /\
  operations (snd (main nominal (boot []))) =
    [ OpOpen "/dev/video0"; OpControl 3 VIDIOC_S_FMT;
      OpControl 3 VIDIOC_REQBUFS; OpControl 3 VIDIOC_QUERYBUF; OpMap 3;
      OpControl 3 VIDIOC_STREAMON; OpControl 3 VIDIOC_QBUF;
      OpControl 3 VIDIOC_DQBUF; OpControl 3 VIDIOC_STREAMOFF;
      OpOpen "/home/pi/captured_frame_raw.jpeg"; OpWrite 4; OpClose 4;
      OpClose 3; OpReport ].
Proof.
  split; [ reflexivity | ].
  apply (main_success_order nominal []). reflexivity.
Defined.

(* ================================================================== *)
(** ** Failures *)

Lemma fail_stops_sound (t : list event) :
  fail_stops t = true ->
  forall pre e post, t = (pre ++ e :: post)%list -> step_failed e = true ->
  exists m, post = [EvPerror m].
Proof.
  induction t as [|a t IH]; intros H pre e post Heq Hf.
  - destruct pre; discriminate Heq.
  - destruct pre as [|x pre]; simpl in Heq; injection Heq as -> ->.
    + simpl in H. rewrite Hf in H.
      destruct post as [|[] [|]]; try discriminate H. eauto.
    + simpl in H. destruct (step_failed x) eqn:F.
      * destruct pre as [|y pre]; simpl in H.
        -- destruct e; try discriminate H; discriminate Hf.
        -- destruct y; try discriminate H.
           destruct pre; discriminate H.
      * eapply IH; eauto.
Qed.

Lemma existsb_none {A : Type} (f : A -> bool) (l : list A) :
  (forall x, In x l -> f x = false) -> existsb f l = false.
Proof.
  induction l as [|a l IH]; intros H; simpl; auto.
  rewrite (H a (or_introl eq_refl)). apply IH.
  intros x Hx. apply H. now right.
Qed.

Lemma existsb_split {A : Type} (f : A -> bool) (pre post : list A) (e : A) :
  f e = true -> existsb f (pre ++ e :: post) = true.
Proof.
  intros H. rewrite existsb_app. simpl. rewrite H.
  now rewrite orb_true_r.
Qed.

(** On every path a failed step is followed by its diagnostic only, and
    the exit status is 1 exactly when a step failed. *)
Lemma main_fail_fast (k : kernel) (fs : list (string * list byte)) :
  let r := main k (boot fs) in
  fail_stops (trace (snd r)) = true /\
  exit_status (fst r) =
    Some (if existsb step_failed (trace (snd r)) then 1 else 0).
Proof.
  destruct (main k (boot fs)) as [o s'] eqn:E.
  run_main E; observe;
    cbn [fail_stops existsb step_failed orb]; use_tests;
    cbn [fail_stops existsb step_failed orb]; split; reflexivity.
Qed.

(** C2. If a step whose result the program tests fails (opening the
    device, a control request, the mapping, opening the sink), nothing but
    its diagnostic follows and the exit status is 1; if opening the device
    fails no control request is issued at all; and a run in which no such
    step failed exits with status 0. *)
Theorem failure_stops_the_session (k : kernel)
    (fs : list (string * list byte)) :
  let r := main k (boot fs) in
  (forall pre e post,
      trace (snd r) = (pre ++ e :: post)%list -> step_failed e = true ->
      (exists m, post = [EvPerror m]) /\ exit_status (fst r) = Some 1)
  /\ (k_open k CAMERA_DEV_PATH O_RDWR < 0 ->
      forall e, In e (trace (snd r)) -> is_control e = false)
  /\ ((forall e, In e (trace (snd r)) -> step_failed e = false) ->
      exit_status (fst r) = Some 0).
Proof.
  intros r. destruct (main_fail_fast k fs) as [Hstop Hexit].
  fold r in Hstop, Hexit. split; [ | split ].
  - intros pre e post Heq Hf. split.
    + exact (fail_stops_sound _ Hstop pre e post Heq Hf).
    + rewrite Hexit, Heq, (existsb_split _ _ _ _ Hf). reflexivity.
  - intros Hneg. apply Z.ltb_lt in Hneg. subst r.
    destruct (main k (boot fs)) as [o s'] eqn:E.
    run_main E; try congruence.
    observe. intros e [<- | [<- | []]]; reflexivity.
  - intros Hall. rewrite Hexit, (existsb_none _ _ Hall). reflexivity.
Qed.

Lemma failure_stops_the_session_witness :
  (step_failed
     (EvIoctl 3 VIDIOC_QUERYBUF (ArgBuffer fresh_descriptor) (-1)) = true
   /\ (exists m, [EvPerror ("Failure on VIDIOC_QUERYBUF, exiting..."
                            ++ nl)%string] = [EvPerror m])
   /\ exit_status (fst (main query_fails (boot []))) = Some 1)
  /\ (k_open device_absent CAMERA_DEV_PATH O_RDWR < 0
      /\ forall e,
           In e (trace (snd (main device_absent (boot [])))) ->
           is_control e = false)
  /\ exit_status (fst (main nominal (boot []))) = Some 0.
Proof.
  split; [ | split ].
  - assert (Hf : step_failed
                   (EvIoctl 3 VIDIOC_QUERYBUF (ArgBuffer fresh_descriptor)
                      (-1)) = true) by reflexivity.
    assert (Ht : trace (snd (main query_fails (boot []))) =
                 ([ EvOpen CAMERA_DEV_PATH O_RDWR None 3;
                    EvIoctl 3 VIDIOC_S_FMT (ArgFormat fixed_format) 0;
                    EvIoctl 3 VIDIOC_REQBUFS (ArgReqbufs fixed_request) 0 ]
                  ++ EvIoctl 3 VIDIOC_QUERYBUF (ArgBuffer fresh_descriptor)
                       (-1)
                  :: [ EvPerror ("Failure on VIDIOC_QUERYBUF, exiting..."
                                 ++ nl)%string ])%list)
      by (vm_compute; reflexivity).
    destruct (proj1 (failure_stops_the_session query_fails []) _ _ _ Ht Hf)
      as [Hpost Hexit].
    split; [ exact Hf | split; [ exact Hpost | exact Hexit ] ].
  - assert (Hneg : k_open device_absent CAMERA_DEV_PATH O_RDWR < 0)
      by reflexivity.
    split; [ exact Hneg | ].
    exact (proj1 (proj2 (failure_stops_the_session device_absent [])) Hneg).
  - apply (proj2 (proj2 (failure_stops_the_session nominal []))).
    assert (Hall : forallb (fun e => negb (step_failed e))
                     (trace (snd (main nominal (boot [])))) = true)
      by (vm_compute; reflexivity).
    intros e Hin.
    apply negb_true_iff.
    exact (proj1 (forallb_forall _ _) Hall e Hin).
Defined.

(* ================================================================== *)
(** ** The mapped region *)

Lemma Forall_repeat {A : Type} (P : A -> Prop) (x : A) (n : nat) :
  P x -> Forall P (repeat x n).
Proof. intros H. induction n; simpl; constructor; auto. Qed.

(** C3. When the buffer query and the mapping succeed, allocate_buffer
    returns with a mapping at buffer_start whose bytes are all zero and
    whose length is the length the driver reported at the query; and
    activate_streaming, the only thing that runs before get_frame, leaves
    the mapping as it is. *)
Theorem mapped_region_zeroed (k : kernel) (s : process) :
  let d := snd (k_querybuf k fresh_descriptor) in
  let p := k_mmap k (length d) (m_offset d) in
  0 <= fst (k_querybuf k fresh_descriptor) ->
  p <> MAP_FAILED ->
  exists s1 bytes,
    allocate_buffer k s = (Returns tt, s1)
    /\ buffer (camera_params s1) = d
    /\ buffer_start (camera_params s1) = p
    /\ vm s1 = Some (mk_mapping p bytes)
    /\ Forall (fun x => x = x00) bytes
    /\ N.of_nat (List.length bytes) = length d
    /\ (forall o s2, activate_streaming k s1 = (o, s2) -> vm s2 = vm s1).
Proof.
  intros d p Hq Hp.
  destruct s as [[dfs cf rb b bs] msg v t fs tr].
  rewrite allocate_buffer_run. cbv zeta. fold d. fold p.
  apply Z.ltb_ge in Hq. rewrite Hq.
  apply Z.eqb_neq in Hp. rewrite Hp.
  eexists. exists (repeat x00 (N.to_nat (length d))).
  split; [ reflexivity | ].
  cbn [camera_params buffer buffer_start vm].
  repeat split.
  - now apply Forall_repeat.
  - rewrite repeat_length. apply N2Nat.id.
  - intros o s2. rewrite activate_streaming_run. cbv zeta.
    destruct (k_streamon k V4L2_BUF_TYPE_VIDEO_CAPTURE <? 0);
      intros H; apply pair_equal_spec in H; destruct H as [_ <-];
      reflexivity.
Qed.

Lemma mapped_region_zeroed_witness :
  0 <= fst (k_querybuf nominal fresh_descriptor) /\
  k_mmap nominal 4 0 <> MAP_FAILED /\
  exists s1,
    allocate_buffer nominal (boot []) = (Returns tt, s1)
    /\ vm s1 = Some (mk_mapping 4096 [x00; x00; x00; x00]).
Proof.
  assert (Hq : 0 <= fst (k_querybuf nominal fresh_descriptor))
    by (vm_compute; discriminate).
  assert (Hp : k_mmap nominal 4 0 <> MAP_FAILED) by (vm_compute; discriminate).
  split; [ exact Hq | split; [ exact Hp | ] ].
  destruct (mapped_region_zeroed nominal (boot []) Hq Hp)
    as (s1 & bytes & Hrun & _ & _ & Hvm & _).
  exists s1. split; [ exact Hrun | ].
  rewrite Hvm. vm_compute in Hrun.
  apply pair_equal_spec in Hrun. destruct Hrun as [_ <-].
  cbn [vm] in Hvm. symmetry. exact Hvm.
Defined.

(* ================================================================== *)
(** ** The image sink *)

Lemma load_length (p : Z) (n : N) (v : option mapping) (data : list byte) :
  load p n v = Some data -> List.length data = N.to_nat n.
Proof.
  unfold load. destruct v as [mp|]; [ | discriminate ].
  destruct (map_base mp =? p); [ | discriminate ]. cbn [andb].
  destruct (N.to_nat n <=? List.length (map_bytes mp))%nat eqn:L;
    [ | discriminate ].
  intros [= <-]. apply Nat.leb_le in L. now apply firstn_length_le.
Qed.


(** A write that returns [r >= 0] found its source in the mapping and
    replaced the first [r] bytes of the file, nothing else. *)
Lemma write_effect_done (k : kernel) (t : list (Z * (string * Z)))
    (v : option mapping) (fs : list (string * list byte)) (fd buf : Z)
    (n : N) (path : string) (oflags : Z) (old : list byte) :
  lookup_fd fd t = Some (path, oflags) ->
  lookup_file path fs = Some old ->
  0 <= fst (write_effect k t v fs fd buf n) ->
  exists data,
    load buf n v = Some data
    /\ fst (write_effect k t v fs fd buf n)
       = Z.min (k_write k path data) (Z.of_N n)
    /\ snd (write_effect k t v fs fd buf n)
       = store_file path
           (overwrite
              (firstn (Z.to_nat (fst (write_effect k t v fs fd buf n))) data)
              old) fs.
Proof.
  intros Hfd Hfile. unfold write_effect. rewrite Hfd.
  destruct (load buf n v) as [data|]; [ | cbn; lia ].
  destruct (writable oflags); [ | cbn; lia ].
  destruct (k_write k path data <? 0) eqn:W.
  - apply Z.ltb_lt in W. cbn [fst]. lia.
  - cbn [fst snd]. rewrite Hfile. intros _. exists data. auto.
Qed.

(** A write that returns a negative value leaves the files alone. *)
Lemma write_effect_failed (k : kernel) (t : list (Z * (string * Z)))
    (v : option mapping) (fs : list (string * list byte)) (fd buf : Z)
    (n : N) :
  fst (write_effect k t v fs fd buf n) < 0 ->
  snd (write_effect k t v fs fd buf n) = fs.
Proof.
  unfold write_effect.
  destruct (lookup_fd fd t) as [[path oflags]|]; [ | reflexivity ].
  destruct (load buf n v) as [data|]; [ | reflexivity ].
  destruct (writable oflags); [ | reflexivity ].
  destruct (k_write k path data <? 0) eqn:W; [ reflexivity | ].
  apply Z.ltb_ge in W. cbn [fst]. lia.
Qed.

Lemma sink_descriptor (img : Z) (t : list (Z * (string * Z))) :
  lookup_fd img
    ((img, (IMAGE_CAPTURE_SAVE_PATH, Z.lor O_WRONLY O_CREAT)) :: t)
  = Some (IMAGE_CAPTURE_SAVE_PATH, Z.lor O_WRONLY O_CREAT).
Proof. cbn [lookup_fd]. now rewrite Z.eqb_refl. Qed.

(** The sink is opened with O_CREAT and without O_TRUNC: afterwards the
    file exists and holds what it held. *)
Lemma lookup_sink_open (fs : list (string * list byte)) :
  lookup_file IMAGE_CAPTURE_SAVE_PATH
    (open_effect IMAGE_CAPTURE_SAVE_PATH (Z.lor O_WRONLY O_CREAT) fs)
  = Some (contents IMAGE_CAPTURE_SAVE_PATH fs).
Proof. apply lookup_open_effect; reflexivity. Qed.

Lemma to_nat_of_N (n : N) : Z.to_nat (Z.of_N n) = N.to_nat n.
Proof. now rewrite <- N_nat_Z, Nat2Z.id. Qed.

Lemma overwrite_length (d old : list byte) :
  List.length (overwrite d old)
  = Nat.max (List.length d) (List.length old).
Proof. unfold overwrite. rewrite length_app, length_skipn. lia. Qed.

Lemma overwrite_keeps_tail (d old : list byte) (i : nat) :
  (List.length d <= i)%nat ->
  nth_error (overwrite d old) i = nth_error old i.
Proof.
  intros H. unfold overwrite. rewrite nth_error_app2 by exact H.
  rewrite nth_error_skipn. f_equal. lia.
Qed.

Ltac find_event := repeat first [ left; reflexivity | right ].



Ltac events_of Hin :=
  cbn [In] in Hin;
  repeat (destruct Hin as [Hin | Hin]; [ try discriminate Hin | ]);
  try contradiction.

(** C6. The result of write is not looked at: whenever the write of the
    frame fails, main still closes the device, reports success and
    returns 0, and the output file holds none of the frame. *)
Theorem write_failure_goes_unnoticed (k : kernel)
    (fs : list (string * list byte)) (fd buf : Z) (n : N) (r : Z) :
  In (EvWrite fd buf n r) (trace (snd (main k (boot fs)))) ->
  r < 0 ->
  exit_status (fst (main k (boot fs))) = Some 0
  /\ In (EvPrintf ("Image capture successful, saved to "
                   ++ IMAGE_CAPTURE_SAVE_PATH ++ nl)%string)
        (trace (snd (main k (boot fs))))
  /\ contents IMAGE_CAPTURE_SAVE_PATH (files (snd (main k (boot fs))))
     = contents IMAGE_CAPTURE_SAVE_PATH fs.
Proof.
  destruct (main k (boot fs)) as [o s'] eqn:E.
  run_main E; observe; intros Hin Hr; events_of Hin.
  apply (f_equal write_result) in Hin. cbv [write_result] in Hin.
  rename Hin into Hw.
  split; [ reflexivity | split; [ find_event | ] ].
  rewrite write_effect_failed by (rewrite Hw; exact Hr).
  unfold contents at 1. now rewrite lookup_sink_open.
Qed.

Lemma write_failure_goes_unnoticed_witness :
  In (EvWrite 4 4096 4 (-1)) (trace (snd (main sink_refuses (boot []))))
  /\ -1 < 0
  /\ exit_status (fst (main sink_refuses (boot []))) = Some 0.
Proof.
  assert (Hin : In (EvWrite 4 4096 4 (-1))
                  (trace (snd (main sink_refuses (boot [])))))
    by (vm_compute; find_event).
  assert (Hr : -1 < 0) by reflexivity.
  split; [ exact Hin | split; [ exact Hr | ] ].
  exact (proj1 (write_failure_goes_unnoticed sink_refuses [] 4 4096 4 (-1)
                  Hin Hr)).
Defined.

(** C7. When the device opens and the format and the buffer request are
    accepted, but the buffer query or the mapping fails, main exits with
    status 1 with the device descriptor still open: no close and no
    stream-on was issued. *)
Theorem query_or_map_failure_leaves_device_open (k : kernel)
    (fs : list (string * list byte)) :
  let dev := k_open k CAMERA_DEV_PATH O_RDWR in
  let q := k_querybuf k fresh_descriptor in
  0 <= dev ->
  0 <= fst (k_s_fmt k fixed_format) ->
  0 <= fst (k_reqbufs k fixed_request) ->
  fst q < 0 \/ k_mmap k (length (snd q)) (m_offset (snd q)) = MAP_FAILED ->
  let r := main k (boot fs) in
  exit_status (fst r) = Some 1
  /\ is_open dev (snd r) = true
  /\ (forall e, In e (trace (snd r)) -> is_close e = false)
  /\ (forall e, In e (trace (snd r)) ->
        is_request VIDIOC_STREAMON e = false).
Proof.
  intros dev q Hdev Hfmt Hreq Hfail r. subst dev q r.
  apply Z.ltb_ge in Hdev, Hfmt, Hreq.
  assert (Hfail' :
            (fst (k_querybuf k fresh_descriptor) <? 0) = true
            \/ (k_mmap k (length (snd (k_querybuf k fresh_descriptor)))
                  (m_offset (snd (k_querybuf k fresh_descriptor)))
                =? MAP_FAILED) = true).
  { destruct Hfail as [H | H]; [ left; now apply Z.ltb_lt
                               | right; now apply Z.eqb_eq ]. }
  clear Hfail.
  destruct (main k (boot fs)) as [o s'] eqn:E.
  run_main E; try congruence;
    try (exfalso; destruct Hfail'; congruence).
  all: observe; unfold is_open; cbn [fds lookup_fd]; rewrite Z.eqb_refl.
  all: repeat split; try reflexivity.
  all: intros e Hin; events_of Hin; subst e; reflexivity.
Qed.

Lemma query_or_map_failure_leaves_device_open_witness :
  0 <= k_open query_fails CAMERA_DEV_PATH O_RDWR
  /\ 0 <= fst (k_s_fmt query_fails fixed_format)
  /\ 0 <= fst (k_reqbufs query_fails fixed_request)
  /\ fst (k_querybuf query_fails fresh_descriptor) < 0
  /\ exit_status (fst (main query_fails (boot []))) = Some 1
  /\ is_open 3 (snd (main query_fails (boot []))) = true.
Proof.
  assert (H1 : 0 <= k_open query_fails CAMERA_DEV_PATH O_RDWR)
    by (vm_compute; discriminate).
  assert (H2 : 0 <= fst (k_s_fmt query_fails fixed_format))
    by (vm_compute; discriminate).
  assert (H3 : 0 <= fst (k_reqbufs query_fails fixed_request))
    by (vm_compute; discriminate).
  assert (H4 : fst (k_querybuf query_fails fresh_descriptor) < 0)
    by reflexivity.
  pose proof (query_or_map_failure_leaves_device_open query_fails []
                H1 H2 H3 (or_introl H4)) as (Hexit & Hopen & _).
  split; [ exact H1 | split; [ exact H2 | split; [ exact H3 | ] ] ].
  split; [ exact H4 | split; [ exact Hexit | exact Hopen ] ].
Defined.

(* ================================================================== *)
(** ** Diagnostics of get_frame *)

Lemma last_diagnostic_log (s : process) (m : string) :
  last_diagnostic (log (EvPerror m) s) = Some m.
Proof.
  unfold last_diagnostic, log. cbn [trace].
  now rewrite rev_app_distr.
Qed.

(** C5. Both failures of get_frame end the process with status 1, but
    with one and the same diagnostic: the dequeue failure is reported
    under the name of the enqueue request, VIDIOC_QBUF. *)
Theorem get_frame_diagnostics_coincide (k : kernel) (s : process) :
  let q := k_qbuf k (buffer (camera_params s)) in
  let dq := k_dqbuf k (snd q) in
  (fst q < 0 ->
   fst (get_frame k s) = Exited 1
   /\ last_diagnostic (snd (get_frame k s)) = Some "VIDIOC_QBUF")
  /\ (0 <= fst q -> fst dq < 0 ->
      fst (get_frame k s) = Exited 1
      /\ last_diagnostic (snd (get_frame k s)) = Some "VIDIOC_QBUF").
Proof.
  destruct s as [[dfs cf rb b bs] msg v t fs tr].
  cbn [camera_params buffer]. cbv zeta.
  rewrite get_frame_run. cbv zeta.
  split.
  - intros Hq. apply Z.ltb_lt in Hq. rewrite Hq.
    split; [ reflexivity | ]. cbn [snd].
    apply (last_diagnostic_log (mk_process _ _ _ _ _ _)).
  - intros Hq Hdq. apply Z.ltb_ge in Hq. apply Z.ltb_lt in Hdq.
    rewrite Hq, Hdq.
    split; [ reflexivity | ]. cbn [snd].
    apply (last_diagnostic_log (mk_process _ _ _ _ _ _)).
Qed.

Lemma get_frame_diagnostics_coincide_witness :
  (0 <= fst (k_qbuf dequeue_fails (buffer (camera_params (boot []))))
   /\ fst (k_dqbuf dequeue_fails
             (snd (k_qbuf dequeue_fails (buffer (camera_params (boot []))))))
      < 0
   /\ last_diagnostic (snd (get_frame dequeue_fails (boot [])))
      = Some "VIDIOC_QBUF")
  /\ (fst (k_qbuf enqueue_fails (buffer (camera_params (boot [])))) < 0
      /\ last_diagnostic (snd (get_frame enqueue_fails (boot [])))
         = Some "VIDIOC_QBUF").
Proof.
  split.
  - assert (H1 : 0 <= fst (k_qbuf dequeue_fails
                             (buffer (camera_params (boot [])))))
      by (vm_compute; discriminate).
    assert (H2 : fst (k_dqbuf dequeue_fails
                        (snd (k_qbuf dequeue_fails
                                (buffer (camera_params (boot []))))))
                 < 0) by reflexivity.
    split; [ exact H1 | split; [ exact H2 | ] ].
    exact (proj2 (proj2 (get_frame_diagnostics_coincide dequeue_fails
                           (boot [])) H1 H2)).
  - assert (H1 : fst (k_qbuf enqueue_fails
                        (buffer (camera_params (boot [])))) < 0)
      by reflexivity.
    split; [ exact H1 | ].
    exact (proj2 (proj1 (get_frame_diagnostics_coincide enqueue_fails
                           (boot [])) H1)).
Defined.

(* ================================================================== *)
(** ** One buffer, index 0 *)



(* ================================================================== *)
(** ** The length handed to the sink *)

(** C9. activate_streaming leaves the buffer descriptor cleared but for
    type, memory mode and index, so its length and offset are 0 whatever
    the query had reported; in a run that returns 0 the enqueue is handed
    that cleared descriptor, the mapping was made with the length of the
    query, and the count handed to write is the length field as the
    dequeue returned it.  The two lengths can differ. *)
Theorem write_count_comes_from_dequeue (k : kernel)
    (fs : list (string * list byte)) :
  (forall s,
      buffer (camera_params (snd (activate_streaming k s)))
      = fresh_descriptor)
  /\ length fresh_descriptor = 0%N
  /\ m_offset fresh_descriptor = 0%N
  /\ (exit_status (fst (main k (boot fs))) = Some 0 ->
      let t := trace (snd (main k (boot fs))) in
      map_lengths t = [ length (snd (k_querybuf k fresh_descriptor)) ]
      /\ (forall fd a r,
            In (EvIoctl fd VIDIOC_QBUF a r) t ->
            a = ArgBuffer fresh_descriptor)
      /\ write_counts t
         = [ length (snd (k_dqbuf k (snd (k_qbuf k fresh_descriptor)))) ])
  /\ (exists k' fs',
        exit_status (fst (main k' (boot fs'))) = Some 0
        /\ map_lengths (trace (snd (main k' (boot fs')))) = [ 8%N ]
        /\ write_counts (trace (snd (main k' (boot fs')))) = [ 4%N ]).
Proof.
  split; [ | split; [ reflexivity | split; [ reflexivity | split ] ] ].
  - intros [[dfs cf rb b bs] msg v t fs0 tr].
    rewrite activate_streaming_run. cbv zeta.
    now destruct (k_streamon k V4L2_BUF_TYPE_VIDEO_CAPTURE <? 0).
  - destruct (main k (boot fs)) as [o s'] eqn:E.
    run_main E; observe; intros H; try discriminate H.
    cbv zeta. repeat split.
    intros fd a r Hin. events_of Hin. congruence.
  - exists shorter_frame, []. repeat split.
Qed.

Lemma write_count_comes_from_dequeue_witness :
  exit_status (fst (main shorter_frame (boot []))) = Some 0
  /\ map_lengths (trace (snd (main shorter_frame (boot []))))
     = [ length (snd (k_querybuf shorter_frame fresh_descriptor)) ]
  /\ write_counts (trace (snd (main shorter_frame (boot []))))
     = [ length (snd (k_dqbuf shorter_frame
                        (snd (k_qbuf shorter_frame fresh_descriptor)))) ]
  /\ length (snd (k_querybuf shorter_frame fresh_descriptor)) = 8%N
  /\ length (snd (k_dqbuf shorter_frame
                    (snd (k_qbuf shorter_frame fresh_descriptor)))) = 4%N.
Proof.
  assert (H : exit_status (fst (main shorter_frame (boot []))) = Some 0)
    by reflexivity.
  pose proof (proj1 (proj2 (proj2 (proj2
                (write_count_comes_from_dequeue shorter_frame [])))) H)
    as (Hmap & _ & Hwrite).
  split; [ exact H | split; [ exact Hmap | split; [ exact Hwrite | ] ] ].
  split; reflexivity.
Defined.

(* ================================================================== *)
(** ** An output file that is already there *)

(** C10. The sink is opened write-only with O_CREAT and without O_TRUNC.
    So when the output file exists and is longer than the [r] bytes a
    write put into it, the file afterwards is those bytes followed by
    what the old file held from offset [r] on: its length is the old
    length, every byte from [r] on is the old one, and the file is not
    the bytes written; when the write is complete these are the whole
    frame handed to write. *)
Theorem sink_keeps_stale_tail (k : kernel) (fs : list (string * list byte))
    (old : list byte) (fd buf : Z) (n : N) (r : Z) :
  lookup_file IMAGE_CAPTURE_SAVE_PATH fs = Some old ->
  In (EvWrite fd buf n r) (trace (snd (main k (boot fs)))) ->
  0 <= r ->
  (Z.to_nat r < List.length old)%nat ->
  let s' := snd (main k (boot fs)) in
  let oflags := Z.lor O_WRONLY O_CREAT in
  In (EvOpen IMAGE_CAPTURE_SAVE_PATH oflags (Some 432) fd) (trace s')
  /\ Z.land oflags O_ACCMODE = O_WRONLY
  /\ has_flag oflags O_CREAT = true
  /\ has_flag oflags O_TRUNC = false
  /\ exists frame written final,
       load buf n (vm s') = Some frame
       /\ written = firstn (Z.to_nat r) frame
       /\ List.length written = Z.to_nat r
       /\ (r = Z.of_N n -> written = frame)
       /\ lookup_file IMAGE_CAPTURE_SAVE_PATH (files s') = Some final
       /\ final = (written ++ skipn (Z.to_nat r) old)%list
       /\ List.length final = List.length old
       /\ (forall i, (Z.to_nat r <= i)%nat ->
                     nth_error final i = nth_error old i)
       /\ final <> written.
Proof.
  intros Hold.
  destruct (main k (boot fs)) as [o s'] eqn:E.
  run_main E; observe; intros Hin Hr Hlt; events_of Hin.
  cbv zeta. observe.
  match type of Hin with
  | EvWrite ?i ?p ?c (fst (write_effect ?a1 ?a2 ?a3 ?a4 ?a5 ?a6 ?a7)) = _ =>
      pose proof (write_effect_done a1 a2 a3 a4 a5 a6 a7 _ _ _
                    (sink_descriptor _ _) (lookup_sink_open fs)) as Hdone;
      set (w := write_effect a1 a2 a3 a4 a5 a6 a7) in *;
      assert (Hfd : i = fd) by congruence;
      assert (Hbuf : p = buf) by congruence;
      assert (Hn : c = n) by congruence;
      assert (Hw : fst w = r) by congruence
  end.
  clear Hin. subst fd buf n. rewrite Hw in Hdone.
  split; [ find_event | ].
  split; [ reflexivity | split; [ reflexivity | split; [ reflexivity | ] ] ].
  destruct Hdone as (frame & Hload & Hmin & Hsnd); [ lia | ].
  assert (Hcontents : contents IMAGE_CAPTURE_SAVE_PATH fs = old)
    by (unfold contents; now rewrite Hold).
  rewrite Hcontents in Hsnd.
  pose proof (load_length _ _ _ _ Hload) as Hflen.
  assert (Hrn : r <= Z.of_N (length
              (snd (k_dqbuf k (snd (k_qbuf k fresh_descriptor)))))) by lia.
  assert (Hwlen : List.length (firstn (Z.to_nat r) frame) = Z.to_nat r).
  { apply firstn_length_le. rewrite Hflen, <- to_nat_of_N. lia. }
  exists frame, (firstn (Z.to_nat r) frame),
    (overwrite (firstn (Z.to_nat r) frame) old).
  split; [ exact Hload | ].
  split; [ reflexivity | ].
  split; [ exact Hwlen | ].
  split.
  { intros ->. rewrite to_nat_of_N, <- Hflen. apply firstn_all. }
  split; [ rewrite Hsnd; apply lookup_store_same | ].
  split; [ unfold overwrite; now rewrite Hwlen | ].
  split; [ rewrite overwrite_length, Hwlen; lia | ].
  split.
  { intros i Hi. apply overwrite_keeps_tail. now rewrite Hwlen. }
  intros Heq. apply (f_equal (@List.length byte)) in Heq.
  rewrite overwrite_length, Hwlen in Heq. lia.
Qed.

Lemma sink_keeps_stale_tail_witness :
  lookup_file IMAGE_CAPTURE_SAVE_PATH stale_output
    = Some [x01; x02; x03; x04; x05; x06]
  /\ In (EvWrite 4 4096 4 4) (trace (snd (main nominal (boot stale_output))))
  /\ 0 <= 4
  /\ (Z.to_nat 4 < List.length [x01; x02; x03; x04; x05; x06])%nat
  /\ has_flag (Z.lor O_WRONLY O_CREAT) O_TRUNC = false
  /\ lookup_file IMAGE_CAPTURE_SAVE_PATH
       (files (snd (main nominal (boot stale_output))))
     = Some [xff; xd8; xff; xd9; x05; x06].
Proof.
  assert (H1 : lookup_file IMAGE_CAPTURE_SAVE_PATH stale_output
               = Some [x01; x02; x03; x04; x05; x06]) by reflexivity.
  assert (H2 : In (EvWrite 4 4096 4 4)
                 (trace (snd (main nominal (boot stale_output)))))
    by (vm_compute; find_event).
  assert (H3 : 0 <= 4) by (vm_compute; discriminate).
  assert (H4 : (Z.to_nat 4 < List.length [x01; x02; x03; x04; x05; x06])%nat)
    by (vm_compute; lia).
  pose proof (sink_keeps_stale_tail nominal stale_output _ 4 4096 4 4
                H1 H2 H3 H4) as (_ & _ & _ & Htrunc & _).
  split; [ exact H1 | split; [ exact H2 | split; [ exact H3 | ] ] ].
  split; [ exact H4 | split; [ exact Htrunc | ] ].
  vm_compute. reflexivity.
Defined.

(* ================================================================== *)
(** ** Running main again, along a path whose tests are known *)

Ltac call_known lem E :=
  rewrite (bind_run _ _ _ _ (lem _ _ _ _ _ _ _ _ _ _ _)) in E;
  cbv beta zeta in E;
  cbn [fmt_pix pix_field bytesperline sizeimage fst snd
       k_open k_close k_s_fmt k_reqbufs k_querybuf k_mmap k_stale
       k_streamon k_qbuf k_dqbuf k_fill k_streamoff k_write] in E;
  fold fixed_format in E;
  repeat match goal with
         | T : ?c = _ |- _ =>
             match type of E with
             | context [if c then _ else _] => rewrite T in E
             end
         end;
  cbv beta iota in E.

Ltac rerun_main E :=
  unfold main, boot, zero_params, zero_format, zero_pix in E;
  call_known open_camera_device_run E;
  first [ finished E | call_known set_video_format_run E;
  first [ finished E | call_known request_buffer_run E;
  first [ finished E | call_known allocate_buffer_run E;
  first [ finished E | call_known activate_streaming_run E;
  first [ finished E | call_known get_frame_run E;
  first [ finished E | call_known deactivate_streaming_run E;
  first [ finished E | call_known save_to_image_run E;
  first [ finished E | call_known close_camera_device_run E;
                       unfold bind, printf, ret, log in E;
                       cbv beta iota in E; finished E ] ] ] ] ] ] ] ].

(* ================================================================== *)
(** ** What the driver's answers cannot change *)


(** X6. The values the driver writes back into the format at VIDIOC_S_FMT
    and into the buffer request at VIDIOC_REQBUFS (an adjusted width, a
    different buffer count) are never read again: with the same status
    codes, whatever is written back, a run has the same exit status, the
    same calls with the same arguments and results, the same files, the
    same mapping, descriptors and buffer descriptor. *)
Theorem driver_adjustments_are_ignored (k : kernel)
    (g : v4l2_format -> v4l2_format)
    (h : v4l2_requestbuffers -> v4l2_requestbuffers)
    (fs : list (string * list byte)) :
  let r := main k (boot fs) in
  let r' := main (with_adjustments g h k) (boot fs) in
  fst r' = fst r
  /\ trace (snd r') = trace (snd r)
  /\ files (snd r') = files (snd r)
  /\ vm (snd r') = vm (snd r)
  /\ fds (snd r') = fds (snd r)
  /\ buffer (camera_params (snd r')) = buffer (camera_params (snd r))
  /\ buffer_start (camera_params (snd r'))
     = buffer_start (camera_params (snd r))
  /\ (exit_status (fst r) = Some 0 ->
      capture_format (camera_params (snd r')) = g fixed_format
      /\ buffer_request (camera_params (snd r')) = h fixed_request).
Proof.
  destruct (main k (boot fs)) as [o s'] eqn:E.
  run_main E;
    destruct (main (with_adjustments _ _ _) (boot fs)) as [o' s''] eqn:E';
    unfold with_adjustments in E'; rerun_main E';
    cbv zeta; cbn [fst snd trace files vm fds camera_params buffer
                   buffer_start capture_format buffer_request exit_status];
    do 7 (split; [ reflexivity | ]);
    intros Hok; first [ discriminate Hok | split; reflexivity ].
Qed.

Lemma driver_adjustments_are_ignored_witness :
  exit_status (fst (main nominal (boot []))) = Some 0
  /\ trace (snd (main adjusting (boot []))) = trace (snd (main nominal (boot [])))
  /\ width (fmt_pix (capture_format
                       (camera_params (snd (main adjusting (boot []))))))
     = 2592%N
  /\ rb_count (buffer_request
                 (camera_params (snd (main adjusting (boot [])))))
     = 3%N.
Proof.
  assert (H : exit_status (fst (main nominal (boot []))) = Some 0)
    by reflexivity.
  pose proof (driver_adjustments_are_ignored nominal
                (upd_fmt_pix (set_width 2592)) (set_rb_count 3) [])
    as (_ & Htrace & _ & _ & _ & _ & _ & Hadj).
  destruct (Hadj H) as [Hfmt Hreq].
  split; [ exact H | split; [ exact Htrace | ] ].
  unfold adjusting. rewrite Hfmt, Hreq. split; reflexivity.
Defined.

(* ================================================================== *)
(** ** Faults, descriptors and the stream *)


(** X2. Once the device has been opened, its descriptor is closed on the
    path that returns 0, where no descriptor of the program is left open,
    and on that path only: every path that exits with status 1 leaves it
    open and issues no close at all. *)
Theorem device_descriptor_at_exit (k : kernel)
    (fs : list (string * list byte)) :
  let dev := k_open k CAMERA_DEV_PATH O_RDWR in
  let r := main k (boot fs) in
  0 <= dev ->
  (exit_status (fst r) = Some 0 -> fds (snd r) = [])
  /\ (exit_status (fst r) = Some 1 ->
      is_open dev (snd r) = true
      /\ forall e, In e (trace (snd r)) -> is_close e = false).
Proof.
  intros dev r Hdev. subst dev r. apply Z.ltb_ge in Hdev.
  destruct (main k (boot fs)) as [o s'] eqn:E.
  run_main E; try congruence; observe;
    (split; intros Hx; try discriminate Hx).
  all: try (unfold is_open; cbn [fds lookup_fd]; rewrite Z.eqb_refl;
            split; [ reflexivity | ];
            intros e Hin; events_of Hin; subst e; reflexivity).
  cbn [remove_fd]. rewrite Z.eqb_refl.
  destruct (k_open k CAMERA_DEV_PATH O_RDWR
            =? k_open k IMAGE_CAPTURE_SAVE_PATH (Z.lor O_WRONLY O_CREAT))
    eqn:D;
    repeat (cbn [remove_fd];
            first [ rewrite D | rewrite Z.eqb_refl ]);
    reflexivity.
Qed.

Lemma device_descriptor_at_exit_witness :
  0 <= k_open nominal CAMERA_DEV_PATH O_RDWR
  /\ fds (snd (main nominal (boot []))) = []
  /\ 0 <= k_open dequeue_fails CAMERA_DEV_PATH O_RDWR
  /\ is_open 3 (snd (main dequeue_fails (boot []))) = true.
Proof.
  assert (H1 : 0 <= k_open nominal CAMERA_DEV_PATH O_RDWR)
    by (vm_compute; discriminate).
  assert (H2 : 0 <= k_open dequeue_fails CAMERA_DEV_PATH O_RDWR)
    by (vm_compute; discriminate).
  split; [ exact H1 | split ].
  - exact (proj1 (device_descriptor_at_exit nominal [] H1) eq_refl).
  - split; [ exact H2 | ].
    exact (proj1 (proj2 (device_descriptor_at_exit dequeue_fails [] H2)
                    eq_refl)).
Defined.

Ltac eval_trace :=
  repeat (cbn [existsb is_request step_failed andb orb negb
               issued succeeded failed];
          use_tests).

(** X3. VIDIOC_STREAMOFF is issued exactly in the runs in which the
    dequeue succeeded.  When the enqueue or the dequeue fails, the stream
    had been switched on successfully and the process exits without
    switching it off. *)
Theorem stream_off_only_after_dequeue (k : kernel)
    (fs : list (string * list byte)) :
  let t := trace (snd (main k (boot fs))) in
  issued VIDIOC_STREAMOFF t = succeeded VIDIOC_DQBUF t
  /\ (failed VIDIOC_QBUF t || failed VIDIOC_DQBUF t = true ->
      succeeded VIDIOC_STREAMON t = true
      /\ issued VIDIOC_STREAMOFF t = false).
Proof.
  destruct (main k (boot fs)) as [o s'] eqn:E.
  run_main E; observe; cbv zeta; unfold issued, succeeded, failed;
    eval_trace;
    (split; [ reflexivity | ]);
    intros Hx; first [ discriminate Hx | split; reflexivity ].
Qed.

Lemma stream_off_only_after_dequeue_witness :
  failed VIDIOC_QBUF (trace (snd (main dequeue_fails (boot []))))
  || failed VIDIOC_DQBUF (trace (snd (main dequeue_fails (boot [])))) = true
  /\ succeeded VIDIOC_STREAMON (trace (snd (main dequeue_fails (boot []))))
     = true
  /\ issued VIDIOC_STREAMOFF (trace (snd (main dequeue_fails (boot []))))
     = false.
Proof.
  assert (H : failed VIDIOC_QBUF (trace (snd (main dequeue_fails (boot []))))
              || failed VIDIOC_DQBUF
                   (trace (snd (main dequeue_fails (boot [])))) = true)
    by (vm_compute; reflexivity).
  split; [ exact H | ].
  exact (proj2 (stream_off_only_after_dequeue dequeue_fails []) H).
Defined.

(** X4. Stream-on is always asked for the video-capture type, but
    stream-off passes the type field of the buffer descriptor as the
    dequeue left it: deactivate_streaming hands over whatever type the
    descriptor holds, so the two requests name different types when the
    driver's dequeue answer changes the type. *)
Theorem stream_off_carries_dequeued_type (k : kernel)
    (fs : list (string * list byte)) :
  let t := trace (snd (main k (boot fs))) in
  (forall fd a r,
      In (EvIoctl fd VIDIOC_STREAMON a r) t ->
      a = ArgType V4L2_BUF_TYPE_VIDEO_CAPTURE)
  /\ (forall fd a r,
        In (EvIoctl fd VIDIOC_STREAMOFF a r) t ->
        a = ArgType
              (buf_type (snd (k_dqbuf k (snd (k_qbuf k fresh_descriptor))))))
  /\ (forall s,
        In (EvIoctl (device_fs (camera_params s)) VIDIOC_STREAMOFF
              (ArgType (buf_type (buffer (camera_params s))))
              (k_streamoff k (buf_type (buffer (camera_params s)))))
           (trace (snd (deactivate_streaming k s))))
  /\ In (EvIoctl 3 VIDIOC_STREAMOFF (ArgType 9) 0)
        (trace (snd (main retyping (boot [])))).
Proof.
  split; [ | split; [ | split ] ].
  - destruct (main k (boot fs)) as [o s'] eqn:E.
    run_main E; observe; intros fd a r Hin; events_of Hin; congruence.
  - destruct (main k (boot fs)) as [o s'] eqn:E.
    run_main E; observe; intros fd a r Hin; events_of Hin; congruence.
  - intros [[dfs cf rb b bs] msg v t fs0 tr].
    rewrite deactivate_streaming_run. cbv zeta.
    cbn [camera_params device_fs buffer].
    destruct (k_streamoff k (buf_type b) <? 0); cbn [snd trace];
      rewrite ?in_app_iff; cbn [In]; tauto.
  - vm_compute. find_event.
Qed.

Lemma stream_off_carries_dequeued_type_witness :
  In (EvIoctl 3 VIDIOC_STREAMOFF (ArgType 9) 0)
     (trace (snd (main retyping (boot []))))
  /\ ArgType 9
     = ArgType (buf_type (snd (k_dqbuf retyping
                                 (snd (k_qbuf retyping fresh_descriptor))))).
Proof.
  assert (H : In (EvIoctl 3 VIDIOC_STREAMOFF (ArgType 9) 0)
                (trace (snd (main retyping (boot [])))))
    by (vm_compute; find_event).
  split; [ exact H | ].
  exact (proj1 (proj2 (stream_off_carries_dequeued_type retyping []))
           3 (ArgType 9) 0 H).
Defined.

(* ================================================================== *)
(** ** The files of a run *)

Lemma lookup_store_other (p q : string) (d : list byte)
    (fs : list (string * list byte)) :
  p <> q -> lookup_file p (store_file q d fs) = lookup_file p fs.
Proof.
  intros Hpq. induction fs as [|[q' d'] fs IH]; cbn [store_file lookup_file].
  - destruct (String.eqb q p) eqn:E; [ | reflexivity ].
    apply String.eqb_eq in E. congruence.
  - destruct (String.eqb q' q) eqn:E; cbn [lookup_file].
    + apply String.eqb_eq in E. subst q'.
      destruct (String.eqb q p) eqn:E'; [ | reflexivity ].
      apply String.eqb_eq in E'. congruence.
    + now rewrite IH.
Qed.

Lemma lookup_open_other (p q : string) (fl : Z)
    (fs : list (string * list byte)) :
  p <> q -> lookup_file p (open_effect q fl fs) = lookup_file p fs.
Proof.
  intros Hpq. unfold open_effect.
  destruct (lookup_file q fs);
    [ destruct (has_flag fl O_TRUNC && writable fl)
    | destruct (has_flag fl O_CREAT) ];
    auto using lookup_store_other.
Qed.

Lemma lookup_write_other (k : kernel) (t : list (Z * (string * Z)))
    (v : option mapping) (fs : list (string * list byte)) (fd buf : Z)
    (n : N) (path : string) (oflags : Z) (p : string) :
  lookup_fd fd t = Some (path, oflags) ->
  p <> path ->
  lookup_file p (snd (write_effect k t v fs fd buf n)) = lookup_file p fs.
Proof.
  intros Hfd Hp. unfold write_effect. rewrite Hfd.
  destruct (load buf n v) as [data|]; [ | reflexivity ].
  destruct (writable oflags); [ | reflexivity ].
  destruct (k_write k path data <? 0); [ reflexivity | ].
  cbn [snd]. destruct (lookup_file path fs); [ | reflexivity ].
  now apply lookup_store_other.
Qed.

(** X7. Whatever happens, a run leaves every regular file other than the
    output path as it found it, absent ones included. *)
Theorem other_files_untouched (k : kernel) (fs : list (string * list byte))
    (p : string) :
  p <> IMAGE_CAPTURE_SAVE_PATH ->
  lookup_file p (files (snd (main k (boot fs)))) = lookup_file p fs.
Proof.
  intros Hp.
  destruct (main k (boot fs)) as [o s'] eqn:E.
  run_main E; observe; try reflexivity.
  rewrite (lookup_write_other _ _ _ _ _ _ _ _ _ p (sink_descriptor _ _) Hp).
  now apply lookup_open_other.
Qed.

Lemma other_files_untouched_witness :
  "/home/pi/notes.txt" <> IMAGE_CAPTURE_SAVE_PATH
  /\ lookup_file "/home/pi/notes.txt"
       (files (snd (main nominal
                      (boot [("/home/pi/notes.txt", [x41; x42])]))))
     = Some [x41; x42].
Proof.
  assert (H : "/home/pi/notes.txt" <> IMAGE_CAPTURE_SAVE_PATH)
    by discriminate.
  split; [ exact H | ].
  exact (other_files_untouched nominal [("/home/pi/notes.txt", [x41; x42])]
           "/home/pi/notes.txt" H).
Defined.

Lemma overwrite_covers (d old : list byte) :
  (List.length old <= List.length d)%nat -> overwrite d old = d.
Proof.
  intros H. unfold overwrite. rewrite skipn_all2 by exact H.
  apply app_nil_r.
Qed.

(** X8. When the output file is absent, or not longer than the [r] bytes
    a write put into it, the file afterwards is exactly those bytes, the
    first [r] of the frame handed to write; after a complete write it is
    the frame, byte for byte. *)
Theorem short_or_absent_file_becomes_the_frame (k : kernel)
    (fs : list (string * list byte)) (fd buf : Z) (n : N) (r : Z) :
  In (EvWrite fd buf n r) (trace (snd (main k (boot fs)))) ->
  0 <= r ->
  (List.length (contents IMAGE_CAPTURE_SAVE_PATH fs) <= Z.to_nat r)%nat ->
  let s' := snd (main k (boot fs)) in
  exists frame,
    load buf n (vm s') = Some frame
    /\ lookup_file IMAGE_CAPTURE_SAVE_PATH (files s')
       = Some (firstn (Z.to_nat r) frame)
    /\ (r = Z.of_N n ->
        lookup_file IMAGE_CAPTURE_SAVE_PATH (files s') = Some frame).
Proof.
  destruct (main k (boot fs)) as [o s'] eqn:E.
  run_main E; observe; intros Hin Hr Hshort; events_of Hin.
  cbv zeta. observe.
  match type of Hin with
  | EvWrite ?i ?p ?c (fst (write_effect ?a1 ?a2 ?a3 ?a4 ?a5 ?a6 ?a7)) = _ =>
      pose proof (write_effect_done a1 a2 a3 a4 a5 a6 a7 _ _ _
                    (sink_descriptor _ _) (lookup_sink_open fs)) as Hdone;
      set (w := write_effect a1 a2 a3 a4 a5 a6 a7) in *;
      assert (Hbuf : p = buf) by congruence;
      assert (Hn : c = n) by congruence;
      assert (Hw : fst w = r) by congruence
  end.
  clear Hin. subst buf n. rewrite Hw in Hdone.
  destruct Hdone as (frame & Hload & Hmin & Hsnd); [ lia | ].
  pose proof (load_length _ _ _ _ Hload) as Hflen.
  assert (Hwlen : List.length (firstn (Z.to_nat r) frame) = Z.to_nat r).
  { apply firstn_length_le. rewrite Hflen, <- to_nat_of_N. lia. }
  assert (Hfile : lookup_file IMAGE_CAPTURE_SAVE_PATH (snd w)
                  = Some (firstn (Z.to_nat r) frame)).
  { rewrite Hsnd, lookup_store_same, overwrite_covers;
      [ reflexivity | now rewrite Hwlen ]. }
  exists frame. split; [ exact Hload | split; [ exact Hfile | ] ].
  intros Hfull. rewrite Hfile, Hfull, to_nat_of_N, <- Hflen.
  now rewrite firstn_all.
Qed.

Lemma short_or_absent_file_becomes_the_frame_witness :
  In (EvWrite 4 4096 4 4) (trace (snd (main nominal (boot []))))
  /\ 0 <= 4
  /\ (List.length (contents IMAGE_CAPTURE_SAVE_PATH []) <= Z.to_nat 4)%nat
  /\ exists frame,
       load 4096 4 (vm (snd (main nominal (boot [])))) = Some frame
       /\ lookup_file IMAGE_CAPTURE_SAVE_PATH
            (files (snd (main nominal (boot [])))) = Some frame.
Proof.
  assert (H1 : In (EvWrite 4 4096 4 4)
                 (trace (snd (main nominal (boot [])))))
    by (vm_compute; find_event).
  assert (H2 : 0 <= 4) by (vm_compute; discriminate).
  assert (H3 : (List.length (contents IMAGE_CAPTURE_SAVE_PATH [])
                <= Z.to_nat 4)%nat) by (vm_compute; lia).
  split; [ exact H1 | split; [ exact H2 | split; [ exact H3 | ] ] ].
  destruct (short_or_absent_file_becomes_the_frame nominal [] 4 4096 4 4
              H1 H2 H3) as (frame & Hload & _ & Hfull).
  exists frame. split; [ exact Hload | exact (Hfull eq_refl) ].
Defined.

(* ================================================================== *)
(** ** What the output tells *)

Lemma diagnosed_sound (t : list event) :
  diagnosed t = true ->
  forall pre e post, t = (pre ++ e :: post)%list -> step_failed e = true ->
  post = [EvPerror (diagnostic_of e)].
Proof.
  induction t as [|a t IH]; intros H pre e post Heq Hf.
  - destruct pre; discriminate Heq.
  - destruct pre as [|x pre]; simpl in Heq; injection Heq as -> ->.
    + cbn [diagnosed] in H. rewrite Hf in H.
      destruct post as [|[] [|]]; try discriminate H.
      apply String.eqb_eq in H. now subst.
    + cbn [diagnosed] in H. destruct (step_failed x) eqn:F.
      * destruct pre as [|y pre]; cbn [app] in H.
        -- destruct e; try discriminate H; discriminate Hf.
        -- destruct y; try discriminate H.
           destruct pre; discriminate H.
      * eapply IH; eauto.
Qed.

Lemma main_diagnosed (k : kernel) (fs : list (string * list byte)) :
  diagnosed (trace (snd (main k (boot fs)))) = true.
Proof.
  destruct (main k (boot fs)) as [o s'] eqn:E.
  run_main E; observe;
    repeat (cbn [diagnosed step_failed]; use_tests);
    reflexivity.
Qed.

(** The calls main tests are these and no others. *)
Lemma tested_calls_of_main (k : kernel) (fs : list (string * list byte))
    (e : event) :
  In e (trace (snd (main k (boot fs)))) ->
  step_failed e = true ->
  In (call_of e)
    [ OpOpen CAMERA_DEV_PATH; OpOpen IMAGE_CAPTURE_SAVE_PATH;
      OpControl 0 VIDIOC_S_FMT; OpControl 0 VIDIOC_REQBUFS;
      OpControl 0 VIDIOC_QUERYBUF; OpMap 0; OpControl 0 VIDIOC_STREAMON;
      OpControl 0 VIDIOC_QBUF; OpControl 0 VIDIOC_DQBUF;
      OpControl 0 VIDIOC_STREAMOFF ].
Proof.
  destruct (main k (boot fs)) as [o s'] eqn:E.
  run_main E; observe; intros Hin Hf; events_of Hin; subst e;
    first [ discriminate Hf | cbn [call_of]; find_event ].
Qed.

Lemma same_diagnostic_same_call (e1 e2 : event) :
  let tested :=
    [ OpOpen CAMERA_DEV_PATH; OpOpen IMAGE_CAPTURE_SAVE_PATH;
      OpControl 0 VIDIOC_S_FMT; OpControl 0 VIDIOC_REQBUFS;
      OpControl 0 VIDIOC_QUERYBUF; OpMap 0; OpControl 0 VIDIOC_STREAMON;
      OpControl 0 VIDIOC_QBUF; OpControl 0 VIDIOC_DQBUF;
      OpControl 0 VIDIOC_STREAMOFF ] in
  In (call_of e1) tested -> In (call_of e2) tested ->
  diagnostic_of e1 = diagnostic_of e2 ->
  call_of e1 = call_of e2
  \/ (call_of e1 = OpControl 0 VIDIOC_QBUF
      /\ call_of e2 = OpControl 0 VIDIOC_DQBUF)
  \/ (call_of e1 = OpControl 0 VIDIOC_DQBUF
      /\ call_of e2 = OpControl 0 VIDIOC_QBUF).
Proof.
  intros tested H1 H2 Hd. subst tested.
  destruct e1 as [p1 ? ? ?| ?| ? q1 ? ?| ? ? ? ? ? ? ?| ? ? ? ?| ?| ?];
    cbn [call_of In] in H1;
    try (exfalso; intuition discriminate);
  destruct e2 as [p2 ? ? ?| ?| ? q2 ? ?| ? ? ? ? ? ? ?| ? ? ? ?| ?| ?];
    cbn [call_of In] in H2;
    try (exfalso; intuition discriminate).
  - assert (P1 : p1 = CAMERA_DEV_PATH \/ p1 = IMAGE_CAPTURE_SAVE_PATH)
      by (intuition (try discriminate; congruence)).
    assert (P2 : p2 = CAMERA_DEV_PATH \/ p2 = IMAGE_CAPTURE_SAVE_PATH)
      by (intuition (try discriminate; congruence)).
    destruct P1 as [-> | ->], P2 as [-> | ->];
      first [ now left | discriminate Hd ].
  - assert (P1 : p1 = CAMERA_DEV_PATH \/ p1 = IMAGE_CAPTURE_SAVE_PATH)
      by (intuition (try discriminate; congruence)).
    destruct P1 as [-> | ->]; destruct q2; discriminate Hd.
  - assert (P1 : p1 = CAMERA_DEV_PATH \/ p1 = IMAGE_CAPTURE_SAVE_PATH)
      by (intuition (try discriminate; congruence)).
    destruct P1 as [-> | ->]; discriminate Hd.
  - assert (P2 : p2 = CAMERA_DEV_PATH \/ p2 = IMAGE_CAPTURE_SAVE_PATH)
      by (intuition (try discriminate; congruence)).
    destruct P2 as [-> | ->]; destruct q1; discriminate Hd.
  - destruct q1, q2; cbn [call_of];
      first [ now left | discriminate Hd | now (right; left)
            | now (right; right) ].
  - destruct q1; discriminate Hd.
  - assert (P2 : p2 = CAMERA_DEV_PATH \/ p2 = IMAGE_CAPTURE_SAVE_PATH)
      by (intuition (try discriminate; congruence)).
    destruct P2 as [-> | ->]; discriminate Hd.
  - destruct q2; discriminate Hd.
  - now left.
Qed.

(** X9. After a failed call the one diagnostic is the text main.c gives
    to perror at that call; and two runs that end with the same text
    failed at the same call, unless one failed at the enqueue and the
    other at the dequeue, which share the text VIDIOC_QBUF. *)
Theorem diagnostic_names_the_failed_call (k1 k2 : kernel)
    (fs1 fs2 : list (string * list byte)) (pre1 pre2 post1 post2 : list event)
    (e1 e2 : event) :
  trace (snd (main k1 (boot fs1))) = (pre1 ++ e1 :: post1)%list ->
  step_failed e1 = true ->
  trace (snd (main k2 (boot fs2))) = (pre2 ++ e2 :: post2)%list ->
  step_failed e2 = true ->
  post1 = [EvPerror (diagnostic_of e1)]
  /\ post2 = [EvPerror (diagnostic_of e2)]
  /\ (post1 = post2 ->
      call_of e1 = call_of e2
      \/ (call_of e1 = OpControl 0 VIDIOC_QBUF
          /\ call_of e2 = OpControl 0 VIDIOC_DQBUF)
      \/ (call_of e1 = OpControl 0 VIDIOC_DQBUF
          /\ call_of e2 = OpControl 0 VIDIOC_QBUF)).
Proof.
  intros Ht1 Hf1 Ht2 Hf2.
  pose proof (diagnosed_sound _ (main_diagnosed k1 fs1) _ _ _ Ht1 Hf1) as P1.
  pose proof (diagnosed_sound _ (main_diagnosed k2 fs2) _ _ _ Ht2 Hf2) as P2.
  split; [ exact P1 | split; [ exact P2 | ] ].
  rewrite P1, P2. intros Heq.
  apply same_diagnostic_same_call.
  - apply (tested_calls_of_main k1 fs1); [ | exact Hf1 ].
    rewrite Ht1. apply in_elt.
  - apply (tested_calls_of_main k2 fs2); [ | exact Hf2 ].
    rewrite Ht2. apply in_elt.
  - congruence.
Qed.

Lemma diagnostic_names_the_failed_call_witness :
  let t1 := trace (snd (main enqueue_fails (boot []))) in
  let t2 := trace (snd (main dequeue_fails (boot []))) in
  let e1 := EvIoctl 3 VIDIOC_QBUF (ArgBuffer fresh_descriptor) (-1) in
  let e2 := EvIoctl 3 VIDIOC_DQBUF (ArgBuffer fresh_descriptor) (-1) in
  t1 = (firstn 6 t1 ++ e1 :: skipn 7 t1)%list
  /\ step_failed e1 = true
  /\ t2 = (firstn 7 t2 ++ e2 :: skipn 8 t2)%list
  /\ step_failed e2 = true
  /\ skipn 7 t1 = [EvPerror "VIDIOC_QBUF"]
  /\ skipn 8 t2 = [EvPerror "VIDIOC_QBUF"].
Proof.
  intros t1 t2 e1 e2.
  assert (H1 : t1 = (firstn 6 t1 ++ e1 :: skipn 7 t1)%list)
    by (vm_compute; reflexivity).
  assert (F1 : step_failed e1 = true) by reflexivity.
  assert (H2 : t2 = (firstn 7 t2 ++ e2 :: skipn 8 t2)%list)
    by (vm_compute; reflexivity).
  assert (F2 : step_failed e2 = true) by reflexivity.
  destruct (diagnostic_names_the_failed_call enqueue_fails dequeue_fails
              [] [] _ _ _ _ e1 e2 H1 F1 H2 F2) as (P1 & P2 & _).
  split; [ exact H1 | split; [ exact F1 | split; [ exact H2 | ] ] ].
  split; [ exact F2 | split; [ exact P1 | exact P2 ] ].
Defined.


(* ================================================================== *)
(** ** save_to_image from any state *)




